(** * The [sawtooth cluster] commands: start, stop, status

    A shallow embedding of [core/sawtooth/cli/cluster.py].  The three
    commands load a YAML state document, pick a node controller, talk to
    the validator network manager and the node command generator, and
    (for [start]) write the document back.

    - YAML values are an inductive type whose dictionaries are [gmap]s,
      so that "key absent" and "key bound to None" stay different, as in
      Python.
    - Python exceptions are values of [exn]; a command is a function from
      the machine (state file and driver world) to the machine it leaves
      behind, the calls it issued and its result.
    - The node controllers, the network manager and the command
      generator live in other modules; they are taken as an interface
      ([NodeDriver]) whose operations may raise. *)

From Stdlib Require Import ZArith Ascii String List DecimalString DecimalNat.
From stdpp Require Import gmap strings list fin_maps.

#[local] Set Warnings "-register-all".
#[local] Open Scope string_scope.

(** ** Python values *)

(** What [yaml.load] can hand back, restricted to string-keyed mappings
    and to trees (no YAML aliases). *)
Inductive pyval :=
| VNone
| VBool (b : bool)
| VInt (z : Z)
| VStr (s : string)
| VList (l : list pyval)
| VDict (d : gmap string pyval).

(** The message of a [CliException].  The source builds it with
    [str.format]; the template is kept apart from its argument. *)
Inductive cli_message :=
| InvalidClusterCommand (cmd : pyval)    (* "invalid cluster command: {}" *)
| TwoManageTypes (running : pyval)       (* "Cannot use two different Manage types. Already running {}" *)
| InvalidManagementType (given : pyval)  (* "invalid management type: {}" *)
| StrOfIOError                           (* str(e) of the IOError of open() *)
| StrOf (msg : string).                  (* str(e) of a ManagementError *)

Inductive exn :=
| CliException (msg : cli_message)
| ManagementError (msg : string)
| IOError
| YAMLError
| KeyError (key : string)
| TypeError
| OverflowError
| OtherError (msg : string).

(** [v == s] for a string literal [s]. *)
Definition py_eq_str (v : pyval) (s : string) : bool :=
  match v with
  | VStr t => String.eqb t s
  | _ => false
  end.

(** [v is None] *)
Definition py_is_none (v : pyval) : bool :=
  match v with
  | VNone => true
  | _ => false
  end.

(** [v[key]] for a string key: a mapping raises [KeyError] on a missing
    key, every other value raises [TypeError]. *)
Definition py_getitem (v : pyval) (key : string) : exn + pyval :=
  match v with
  | VDict d =>
      match d !! key with
      | Some x => inr x
      | None => inl (KeyError key)
      end
  | _ => inl TypeError
  end.

(** [state["Nodes"][node_name] = record] on a mapping [state]. *)
Definition set_node (state : gmap string pyval) (node_name : string)
    (record : pyval) : exn + gmap string pyval :=
  match state !! "Nodes" with
  | None => inl (KeyError "Nodes")
  | Some (VDict nodes) =>
      inr (<["Nodes" := VDict (<[node_name := record]> nodes)]> state)
  | Some _ => inl TypeError
  end.

(** ** Node names *)

(** [str(i)] for a non-negative [i]. *)
Definition py_str_nat (i : nat) : string :=
  NilZero.string_of_uint (Nat.to_uint i).

Fixpoint zeros (n : nat) : string :=
  match n with
  | O => ""
  | S n => String "0"%char (zeros n)
  end.

(** ["{:0>3}".format(i)]: right-aligned in a field of three, filled with
    zeros; longer renderings are kept whole. *)
Definition pad3 (s : string) : string :=
  zeros (3 - String.length s) ++ s.

(** ["validator-{:0>3}".format(i)] *)
Definition node_name (i : nat) : string :=
  "validator-" ++ pad3 (py_str_nat i).

(** [{"Status": "Running", "Index": i}] *)
Definition node_record (i : nat) : pyval :=
  VDict (<["Status" := VStr "Running"]> {["Index" := VInt (Z.of_nat i)]}).

(** ** The machine *)

Inductive controller := DockerNodeController | DaemonNodeController.

(** Calls a command makes that leave a mark outside it, in the order
    they are made. *)
Inductive event :=
| Print (line : string)
| GenStart (name : string) (http_port gossip_port : Z) (genesis : bool)
| GenStop (name : string)
| VnmUpdate
| WriteState (doc : pyval).

(** [~/.sawtooth/cluster/state.yaml] as [open] and [yaml.load] see it. *)
Inductive file_content :=
| Missing                 (* open(file_name, 'r') raises IOError *)
| Unparsable              (* yaml.load raises *)
| Document (doc : pyval).

(** The network manager over a controller, and the command generator.
    [W] is the world they act on.  Queries read it; the generator and
    [update] may change it; every call may raise. *)
Class NodeDriver (W : Type) := {
  vnm_get_node_names : controller -> W -> exn + list string;
  vnm_is_running : controller -> string -> W -> exn + bool;
  vnm_status : controller -> string -> W -> exn + string;
  vnm_update : controller -> W -> W * option exn;
  generator_start : string -> Z -> Z -> bool -> W -> W * option exn;
  generator_stop : string -> W -> W * option exn
}.

Record machine (W : Type) := Machine {
  state_file : file_content;
  writable : bool;          (* open(file_name, 'w') succeeds *)
  driver : W
}.
Arguments Machine {W} _ _ _.
Arguments state_file {W} _.
Arguments writable {W} _.
Arguments driver {W} _.

(** The machine a driver call leaves behind. *)
Definition with_driver {W} (m : machine W) (w : W) : machine W :=
  Machine (state_file m) (writable m) w.

Record run (W A : Type) := Run {
  after : machine W;
  emitted : list event;
  result : exn + A
}.
Arguments Run {W A} _ _ _.
Arguments after {W A} _.
Arguments emitted {W A} _.
Arguments result {W A} _.

(** State, trace and exceptions. *)
Definition M (W A : Type) : Type := machine W -> run W A.

Definition ret {W A} (a : A) : M W A :=
  fun m => Run m [] (inr a).

Definition raise {W A} (e : exn) : M W A :=
  fun m => Run m [] (inl e).

Definition bind {W A B} (c : M W A) (k : A -> M W B) : M W B :=
  fun m =>
    let r := c m in
    match result r with
    | inl e => Run (after r) (emitted r) (inl e)
    | inr a =>
        let r' := k a (after r) in
        Run (after r') (emitted r ++ emitted r') (result r')
    end.

(** [try: c  except ...: h e] *)
Definition catch {W A} (c : M W A) (h : exn -> M W A) : M W A :=
  fun m =>
    let r := c m in
    match result r with
    | inl e =>
        let r' := h e (after r) in
        Run (after r') (emitted r ++ emitted r') (result r')
    | inr _ => r
    end.

Notation "x <- c ;; k" := (bind c (fun x => k))
  (at level 100, c at next level, right associativity).
Notation "c ;;; k" := (bind c (fun _ => k))
  (at level 100, right associativity).

Definition lift {W A} (r : exn + A) : M W A :=
  fun m => Run m [] r.

Definition emit {W} (ev : event) : M W unit :=
  fun m => Run m [ev] (inr tt).

Definition query {W A} (q : W -> exn + A) : M W A :=
  fun m => Run m [] (q (driver m)).

Definition action {W} (a : W -> W * option exn) : M W unit :=
  fun m =>
    let '(w, r) := a (driver m) in
    Run (with_driver m w) []
        (match r with Some e => inl e | None => inr tt end).

(** [with open(file_name, 'r') as state_file: yaml.load(state_file)] *)
Definition read_state {W} : M W pyval :=
  fun m =>
    match state_file m with
    | Missing => Run m [] (inl IOError)
    | Unparsable => Run m [] (inl YAMLError)
    | Document doc => Run m [] (inr doc)
    end.

(** [with open(file_name, 'w') as state_file: yaml.dump(state, ...)] *)
Definition write_state {W} (state : pyval) : M W unit :=
  fun m =>
    if writable m
    then Run (Machine (Document state) true (driver m)) [WriteState state] (inr tt)
    else Run m [] (inl IOError).

(** [except ManagementError as e: raise CliException(str(e))]; any other
    exception passes through. *)
Definition wrap_management (e : exn) : exn :=
  match e with
  | ManagementError msg => CliException (StrOf msg)
  | _ => e
  end.

Definition management_to_cli {W A} (e : exn) : M W A :=
  raise (wrap_management e).

(** ** The commands *)

(** The parsed command line, as the three commands read it. *)
Record args := Args {
  cluster_command : string;
  count : Z;
  manage : option string;
  node_names : list string
}.

(** [sys.maxint] of CPython 2 where a C long has 64 bits. *)
Definition sys_maxint : Z := 2 ^ 63 - 1.

(** The integer converts to a C long. *)
Definition fits_c_long (n : Z) : bool :=
  ((- sys_maxint - 1 <=? n) && (n <=? sys_maxint))%Z.

(** The values [xrange(0, count)] yields when it is built: the ordinals
    [0 .. count-1], none when [count <= 0]. *)
Definition xrange0 (count : Z) : list nat := seq 0 (Z.to_nat count).

(** [xrange(0, count)].  CPython 2 converts the arguments of [xrange] to
    C longs and raises [OverflowError] for one that does not fit;
    [args.count] comes from [type=int], which accepts any integer. *)
Definition xrange (count : Z) : exn + list nat :=
  if fits_c_long count then inr (xrange0 count) else inl OverflowError.

Section Commands.
Context {W : Type} `{NodeDriver W}.

(** Lines 147-163 of [do_cluster_start]: the body of
    [for i in xrange(0, args.count)], over the ordinals still to visit.
    [state] is the dictionary the loop updates in place. *)
Fixpoint start_nodes (ctl : controller) (existing_nodes : list string)
    (ordinals : list nat) (state : gmap string pyval)
    : M W (gmap string pyval) :=
  match ordinals with
  | [] => ret state
  | i :: rest =>
      running <- (if bool_decide (node_name i ∈ existing_nodes)
                  then query (vnm_is_running ctl (node_name i))
                  else ret false) ;;
      if (running : bool) then
        emit (Print ("Already running: " ++ node_name i)) ;;;
        start_nodes ctl existing_nodes rest state
      else
        let genesis := Nat.eqb i 0 in
        emit (Print ("Starting: " ++ node_name i)) ;;;
        emit (GenStart (node_name i) 8800 5500 genesis) ;;;
        action (generator_start (node_name i) 8800 5500 genesis) ;;;
        state' <- lift (set_node state (node_name i) (node_record i)) ;;
        start_nodes ctl existing_nodes rest state'
  end.

(** Line 146 and the loop under it: [xrange(0, args.count)] is built
    first, then the body runs over what it yields. *)
Definition start_loop (ctl : controller) (existing_nodes : list string)
    (count : Z) (state : gmap string pyval) : M W (gmap string pyval) :=
  ordinals <- lift (xrange count) ;;
  start_nodes ctl existing_nodes ordinals state.

(** Lines 126-133 of [do_cluster_start]: the controller for the
    recorded management type. *)
Definition start_controller (recorded : pyval) : exn + controller :=
  if py_eq_str recorded "docker" then inr DockerNodeController
  else if py_eq_str recorded "daemon" then inr DaemonNodeController
  else inl (CliException (InvalidManagementType recorded)).

(** Lines 105-111 of [do_cluster_start]: the state document, or a
    stopped one when the file cannot be opened. *)
Definition load_or_stopped : M W pyval :=
  catch read_state
    (fun e => match e with
              | IOError => ret (VDict {["State" := VStr "Stopped"]})
              | _ => raise e
              end).

(** Lines 113-124 of [do_cluster_start], which only touch [state]:
    clear the nodes of a stopped cluster, settle the management type
    (or refuse a second one while running), mark the cluster running. *)
Definition settle_manage (a : args) (state : gmap string pyval)
    : exn + gmap string pyval :=
  match py_getitem (VDict state) "State" with
  | inl e => inl e
  | inr lifecycle =>
      let state :=
        if py_eq_str lifecycle "Stopped"
        then <["Nodes" := VDict ∅]> state else state in
      match state !! "Manage" with
      | None =>
          inr (<["State" := VStr "Running"]>
                 (<["Manage" := VStr (default "docker" (manage a))]> state))
      | Some recorded =>
          match manage a with
          | Some requested =>
              if negb (py_eq_str recorded requested)
                 && py_eq_str lifecycle "Running"
              then inl (CliException (TwoManageTypes recorded))
              else inr (<["State" := VStr "Running"]> state)
          | None => inr (<["State" := VStr "Running"]> state)
          end
      end
  end.

(** Lines 113-144 of [do_cluster_start]: settle the state, pick the
    controller and ask the network manager for the nodes it knows. *)
Definition start_settle (a : args) (state : gmap string pyval)
    : M W (gmap string pyval * controller * list string) :=
  state <- lift (settle_manage a state) ;;
  recorded <- lift (py_getitem (VDict state) "Manage") ;;
  ctl <- lift (start_controller recorded) ;;
  existing_nodes <- catch (query (vnm_get_node_names ctl))
                      management_to_cli ;;
  ret (state, ctl, existing_nodes).

(** Lines 105-144 of [do_cluster_start]: everything before the loop.
    Subscripting a loaded value that is not a mapping raises. *)
Definition start_resolve (a : args)
    : M W (gmap string pyval * controller * list string) :=
  loaded <- load_or_stopped ;;
  match loaded with
  | VDict state => start_settle a state
  | _ => raise TypeError
  end.

(** Lines 99-172.  The loop, then the write of [state.yaml] (lines
    165-167), then [vnm.update()] (lines 169-172). *)
Definition do_cluster_start (a : args) : M W unit :=
  resolved <- start_resolve a ;;
  let '(state, ctl, existing_nodes) := resolved in
  state <- start_loop ctl existing_nodes (count a) state ;;
  write_state (VDict state) ;;;
  emit VnmUpdate ;;;
  catch (action (vnm_update ctl)) management_to_cli.

(** Lines 206-208 of [do_cluster_stop]: [for node_name in node_names]. *)
Fixpoint stop_nodes (names : list string) : M W unit :=
  match names with
  | [] => ret tt
  | name :: rest =>
      emit (Print ("Stopping: " ++ name)) ;;;
      emit (GenStop name) ;;;
      action (generator_stop name) ;;;
      stop_nodes rest
  end.

(** Lines 187-193 of [do_cluster_stop]. *)
Definition stop_controller (recorded : pyval) : exn + controller :=
  if py_is_none recorded || py_eq_str recorded "docker"
  then inr DockerNodeController
  else if py_eq_str recorded "daemon" then inr DaemonNodeController
  else inl (CliException (InvalidManagementType recorded)).

(** Lines 175-210.  The state file is read and never written. *)
Definition do_cluster_stop (a : args) : M W unit :=
  state <- catch read_state
             (fun e => match e with
                       | IOError => raise (CliException StrOfIOError)
                       | _ => raise e
                       end) ;;
  recorded <- lift (py_getitem state "Manage") ;;
  ctl <- lift (stop_controller recorded) ;;
  names <- (if Nat.ltb 0 (List.length (node_names a))
            then ret (node_names a)
            else query (vnm_get_node_names ctl)) ;;
  stop_nodes names ;;;
  emit VnmUpdate ;;;
  action (vnm_update ctl).

(** Lines 233-234 of [do_cluster_status]: [for node_name in node_names]. *)
Fixpoint status_nodes (ctl : controller) (names : list string) : M W unit :=
  match names with
  | [] => ret tt
  | name :: rest =>
      st <- query (vnm_status ctl name) ;;
      emit (Print (name ++ " " ++ st)) ;;;
      status_nodes ctl rest
  end.

(** Lines 215-220 of [do_cluster_status]. *)
Definition status_controller (given : option string) : exn + controller :=
  match given with
  | None => inr DockerNodeController
  | Some given =>
      if String.eqb given "docker" then inr DockerNodeController
      else if String.eqb given "daemon" then inr DaemonNodeController
      else inl (CliException (InvalidManagementType (VStr given)))
  end.

(** Lines 213-234.  The state file plays no part. *)
Definition do_cluster_status (a : args) : M W unit :=
  ctl <- lift (status_controller (manage a)) ;;
  names <- (if Nat.ltb 0 (List.length (node_names a))
            then ret (node_names a)
            else query (vnm_get_node_names ctl)) ;;
  status_nodes ctl names.

(** Lines 87-96. *)
Definition do_cluster (a : args) : M W unit :=
  if String.eqb (cluster_command a) "start" then do_cluster_start a
  else if String.eqb (cluster_command a) "status" then do_cluster_status a
  else if String.eqb (cluster_command a) "stop" then do_cluster_stop a
  else raise (CliException (InvalidClusterCommand (VStr (cluster_command a)))).

End Commands.

(** ** A small driver to run the commands on

    The world is the list of nodes the controller knows, the ones that
    run, and the ones whose stop or status call raises.  Both
    controllers see the same world. *)
Module TestDriver.

Record world := World {
  known : list string;
  running : list string;
  faulty : list string
}.

Definition get_node_names (_ : controller) (w : world) : exn + list string :=
  inr (known w).

Definition is_running (_ : controller) (name : string) (w : world)
    : exn + bool :=
  inr (bool_decide (name ∈ running w)).

Definition status (_ : controller) (name : string) (w : world)
    : exn + string :=
  if bool_decide (name ∈ faulty w)
  then inl (ManagementError ("no such node: " ++ name))
  else inr (if bool_decide (name ∈ running w) then "RUNNING" else "STOPPED").

Definition update (_ : controller) (w : world) : world * option exn :=
  (w, None).

Definition start (name : string) (_ _ : Z) (_ : bool) (w : world)
    : world * option exn :=
  (World (name :: known w) (name :: running w) (faulty w), None).

Definition stop (name : string) (w : world) : world * option exn :=
  if bool_decide (name ∈ faulty w)
  then (w, Some (ManagementError ("cannot stop: " ++ name)))
  else (World (known w)
              (filter (fun n => n ≠ name) (running w))
              (faulty w), None).

#[global] Instance node_driver : NodeDriver world := {
  vnm_get_node_names := get_node_names;
  vnm_is_running := is_running;
  vnm_status := status;
  vnm_update := update;
  generator_start := start;
  generator_stop := stop
}.

(** Nothing known, nothing running, nothing faulty. *)
Definition idle : world := World [] [] [].

(** The first validator is up on its own. *)
Definition genesis_up : world :=
  World ["validator-000"] ["validator-000"] [].

(** Two validators known, the second one down. *)
Definition second_down : world :=
  World ["validator-000"; "validator-001"] ["validator-000"] [].

(** Three validators, the middle one out of reach. *)
Definition middle_faulty : world :=
  World ["validator-000"; "validator-001"; "validator-002"]
        ["validator-000"; "validator-001"; "validator-002"]
        ["validator-001"].

End TestDriver.

(** ** State documents to run the commands on *)
Module Documents.

(** A running docker cluster with no node recorded. *)
Definition running_docker : gmap string pyval :=
  <["State" := VStr "Running"]>
    (<["Manage" := VStr "docker"]> {["Nodes" := VDict ∅]}).

(** A stopped cluster that still lists a node of its last run. *)
Definition stopped_stale : gmap string pyval :=
  <["State" := VStr "Stopped"]>
    (<["Manage" := VStr "docker"]>
       {["Nodes" := VDict {[node_name 7 := node_record 7]}]}).

(** A document from before the management type was recorded. *)
Definition without_manage : gmap string pyval :=
  <["State" := VStr "Running"]> {["Nodes" := VDict ∅]}.

End Documents.

(** ** Invocations to run *)
Module Runs.
Import TestDriver Documents.

Definition start (n : Z) (manage : option string) : args :=
  Args "start" n manage [].

Definition stop (names : list string) : args :=
  Args "stop" 0 None names.

Definition status (names : list string) (manage : option string) : args :=
  Args "status" 0 manage names.

(** No state file yet. *)
Definition fresh (w : world) : machine world := Machine Missing true w.

Definition with_document (doc : gmap string pyval) (w : world)
    : machine world :=
  Machine (Document (VDict doc)) true w.

Definition three_names : list string :=
  ["validator-000"; "validator-001"; "validator-002"].

End Runs.

(** ** Reading a run *)

Definition is_gen_start (ev : event) : bool :=
  match ev with
  | GenStart _ _ _ _ => true
  | _ => false
  end.

Definition is_genesis_start (ev : event) : bool :=
  match ev with
  | GenStart _ _ _ genesis => genesis
  | _ => false
  end.

(** The start actions of a trace, in order. *)
Definition gen_starts (evs : list event) : list event :=
  List.filter is_gen_start evs.

(** The names that were handed to the generator's [stop], in order. *)
Fixpoint stop_targets (evs : list event) : list string :=
  match evs with
  | [] => []
  | GenStop name :: evs => name :: stop_targets evs
  | _ :: evs => stop_targets evs
  end.

(** The start action of ordinal [i]. *)
Definition start_action (i : nat) : event :=
  GenStart (node_name i) 8800 5500 (Nat.eqb i 0).

(** What the stop loop emits for [names] when nothing raises. *)
Definition stop_events (names : list string) : list event :=
  flat_map (fun name => [Print ("Stopping: " ++ name); GenStop name]) names.

(** The line [status] prints for a node. *)
Definition status_line (name st : string) : event :=
  Print (name ++ " " ++ st).

(** The [Nodes] mapping of the persisted document, when it has one. *)
Definition persisted_nodes {W} (m : machine W) : option (gmap string pyval) :=
  match state_file m with
  | Document (VDict state) =>
      match state !! "Nodes" with
      | Some (VDict nodes) => Some nodes
      | _ => None
      end
  | _ => None
  end.

(** The persisted document lists ordinal [i] under its name, running. *)
Definition records_running {W} (m : machine W) (i : nat) : Prop :=
  exists nodes,
    persisted_nodes m = Some nodes /\
    nodes !! node_name i = Some (node_record i).

(** The command meets a stopped cluster: no state file, or a document
    whose [State] is ["Stopped"]. *)
Definition prior_stopped {W} (m : machine W) : Prop :=
  state_file m = Missing \/
  exists state,
    state_file m = Document (VDict state) /\
    state !! "State" = Some (VStr "Stopped").

(** The controller [ctl] lists [name] and sees it running in [w]. *)
Definition reports_running {W} `{NodeDriver W} (ctl : controller) (w : W)
    (name : string) : Prop :=
  exists names,
    vnm_get_node_names ctl w = inr names /\
    name ∈ names /\
    vnm_is_running ctl name w = inr true.

(** The controller [do_cluster_start] picks for the persisted document
    of [m], when it names one. *)
Definition recorded_controller {W} (m : machine W) : option controller :=
  match state_file m with
  | Document (VDict state) =>
      match state !! "Manage" with
      | Some recorded =>
          match start_controller recorded with
          | inr ctl => Some ctl
          | inl _ => None
          end
      | None => None
      end
  | _ => None
  end.

(** The targets of [stop] and [status] (lines 201-204 and 228-231): the
    names given, or else the names the controller lists. *)
Definition resolved_names {W} `{NodeDriver W} (a : args) (ctl : controller)
    (w : W) : exn + list string :=
  if Nat.ltb 0 (List.length (node_names a))
  then inr (node_names a)
  else vnm_get_node_names ctl w.

(** Node records written for the ordinals [started], oldest first. *)
Definition record_started (started : list nat) (nodes : gmap string pyval)
    : gmap string pyval :=
  foldl (fun nd i => <[node_name i := node_record i]> nd) nodes started.

(** The events the start loop can emit. *)
Definition loop_event (ev : event) : bool :=
  match ev with
  | Print _ | GenStart _ _ _ _ => true
  | _ => false
  end.

(** The number a string of decimal digits stands for. *)
Definition digits_value (s : string) : option nat :=
  Nat.of_uint <$> NilEmpty.uint_of_string s.

(** *** Statements the code is checked against *)

(** Every ordinal below the count is recorded after a successful start. *)
Definition start_records_every_ordinal {W} `{NodeDriver W}
    (a : args) (m : machine W) : Prop :=
  result (do_cluster_start a m) = inr tt ->
  forall i : nat, (Z.of_nat i < count a)%Z ->
    records_running (after (do_cluster_start a m)) i.

(** A successful stop writes the state document. *)
Definition stop_persists {W} `{NodeDriver W} (a : args) (m : machine W) : Prop :=
  result (do_cluster_stop a m) = inr tt ->
  exists doc, In (WriteState doc) (emitted (do_cluster_stop a m)).

(** With a count of zero or less, a start whose steps before the loop
    went through, and whose state file can be written, writes the state
    it resolved and calls [update]. *)
Definition nonpositive_start_persists {W} `{NodeDriver W}
    (a : args) (m : machine W) : Prop :=
  (count a <= 0)%Z ->
  forall state ctl existing,
    result (start_resolve a m) = inr (state, ctl, existing) ->
    writable m = true ->
    emitted (do_cluster_start a m) = [WriteState (VDict state); VnmUpdate] /\
    state_file (after (do_cluster_start a m)) = Document (VDict state).

(** Every requested name is handed to the generator's [stop]. *)
Definition stop_reaches_every_name {W} `{NodeDriver W}
    (a : args) (m : machine W) : Prop :=
  forall name, In name (node_names a) ->
    In (GenStop name) (emitted (do_cluster_stop a m)).

(** Every requested name whose status the driver can tell gets its line. *)
Definition status_reaches_every_name {W} `{NodeDriver W}
    (a : args) (m : machine W) : Prop :=
  forall ctl name st,
    status_controller (manage a) = inr ctl ->
    In name (node_names a) ->
    vnm_status ctl name (driver m) = inr st ->
    In (status_line name st) (emitted (do_cluster_status a m)).

(** ** A driver whose listing, update or start can be out of order

    The world of [TestDriver] with two switches: while [listing_down]
    holds [get_node_names] raises, while [update_down] holds [update]
    raises.  The generator's [start] raises for the faulty names. *)
Module FlakyDriver.

Record world := World {
  base : TestDriver.world;
  listing_down : bool;
  update_down : bool
}.

Definition on_base (w : world) (r : TestDriver.world * option exn)
    : world * option exn :=
  (World (fst r) (listing_down w) (update_down w), snd r).

Definition get_node_names (ctl : controller) (w : world) : exn + list string :=
  if listing_down w then inl (ManagementError "cannot list nodes")
  else TestDriver.get_node_names ctl (base w).

Definition update (ctl : controller) (w : world) : world * option exn :=
  if update_down w then (w, Some (ManagementError "cannot update"))
  else on_base w (TestDriver.update ctl (base w)).

Definition start (name : string) (http gossip : Z) (genesis : bool)
    (w : world) : world * option exn :=
  if bool_decide (name ∈ TestDriver.faulty (base w))
  then (w, Some (ManagementError ("cannot start: " ++ name)))
  else on_base w (TestDriver.start name http gossip genesis (base w)).

#[global] Instance node_driver : NodeDriver world := {
  vnm_get_node_names := get_node_names;
  vnm_is_running ctl name w := TestDriver.is_running ctl name (base w);
  vnm_status ctl name w := TestDriver.status ctl name (base w);
  vnm_update := update;
  generator_start := start;
  generator_stop name w := on_base w (TestDriver.stop name (base w))
}.

(** Nothing known, the listing out of order. *)
Definition no_listing : world := World TestDriver.idle true false.

(** Nothing known, the update out of order. *)
Definition no_update : world := World TestDriver.idle false true.

(** Nothing known, validator-001 cannot be started. *)
Definition second_unstartable : world :=
  World (TestDriver.World [] [] ["validator-001"]) false false.

(** Two validators known and running, the update out of order. *)
Definition two_up_no_update : world :=
  World (TestDriver.World ["validator-000"; "validator-001"]
           ["validator-000"; "validator-001"] []) false true.

End FlakyDriver.

(** ** More state documents *)
Module MoreDocuments.

(** A running docker cluster whose document has no [Nodes] key. *)
Definition running_without_nodes : gmap string pyval :=
  <["State" := VStr "Running"]> {["Manage" := VStr "docker"]}.

(** A running docker cluster that lists validator-007 only. *)
Definition running_with_seven : gmap string pyval :=
  <["State" := VStr "Running"]>
    (<["Manage" := VStr "docker"]>
       {["Nodes" := VDict {[node_name 7 := node_record 7]}]}).

(** A stopped cluster whose [Manage] is null. *)
Definition stopped_null_manage : gmap string pyval :=
  <["State" := VStr "Stopped"]> {["Manage" := VNone]}.


End MoreDocuments.

(** A line on standard output. *)
Definition is_print (ev : event) : bool :=
  match ev with
  | Print _ => true
  | _ => false
  end.

(** A write of the state document. *)
Definition is_write (ev : event) : bool :=
  match ev with
  | WriteState _ => true
  | _ => false
  end.

(** The line the start loop prints for a node it passes over. *)
Definition already_running_line (i : nat) : event :=
  Print ("Already running: " ++ node_name i).

(** Unfolds the monad's plumbing and nothing else. *)
Ltac unfold_monad :=
  unfold bind, catch, lift, ret, raise, emit, query, action,
    management_to_cli;
  cbn [after emitted result state_file writable driver List.app].

(** * Properties *)

(** ** Node names *)

Lemma digits_value_zero (s : string) :
  digits_value (String "0"%char s) = digits_value s.
Proof.
  unfold digits_value. cbn [NilEmpty.uint_of_string].
  destruct (NilEmpty.uint_of_string s) as [d|]; reflexivity.
Qed.

Lemma digits_value_zeros (k : nat) (s : string) :
  digits_value (zeros k ++ s) = digits_value s.
Proof.
  induction k as [|k IH]; [reflexivity|].
  change (zeros (S k) ++ s) with (String "0"%char (zeros k ++ s)).
  rewrite digits_value_zero. exact IH.
Qed.

Lemma digits_value_str (i : nat) : digits_value (py_str_nat i) = Some i.
Proof.
  unfold digits_value, py_str_nat, NilZero.string_of_uint.
  destruct (Nat.to_uint i) eqn:E;
    try (rewrite <- E, NilEmpty.usu; simpl; f_equal; apply Unsigned.of_to).
  exfalso. pose proof (f_equal Nat.of_uint E) as E0.
  rewrite Unsigned.of_to in E0. simpl in E0. subst i. discriminate E.
Qed.

Lemma node_name_inj (i j : nat) : node_name i = node_name j -> i = j.
Proof.
  unfold node_name. intros E.
  apply (inj (String.app "validator-")) in E.
  apply (f_equal digits_value) in E.
  unfold pad3 in E.
  rewrite !digits_value_zeros, !digits_value_str in E.
  congruence.
Qed.

Lemma start_action_inj (i j : nat) : start_action i = start_action j -> i = j.
Proof.
  unfold start_action. intros E. apply node_name_inj. congruence.
Qed.

Example node_name_0 : node_name 0 = "validator-000".
Proof. reflexivity. Qed.

Example node_name_42 : node_name 42 = "validator-042".
Proof. reflexivity. Qed.

Example node_name_1234 : node_name 1234 = "validator-1234".
Proof. reflexivity. Qed.

(** ** One turn of each loop *)

Section Loops.
Context {W : Type} `{NodeDriver W}.

Lemma start_nodes_cons ctl existing i rest state (m : machine W) :
  start_nodes ctl existing (i :: rest) state m =
  match (if bool_decide (node_name i ∈ existing)
         then vnm_is_running ctl (node_name i) (driver m)
         else inr false) with
  | inl e => Run m [] (inl e)
  | inr true =>
      let r := start_nodes ctl existing rest state m in
      Run (after r) (Print ("Already running: " ++ node_name i) :: emitted r)
          (result r)
  | inr false =>
      let wr := generator_start (node_name i) 8800 5500 (Nat.eqb i 0) (driver m) in
      let m' := with_driver m (fst wr) in
      let evs := [Print ("Starting: " ++ node_name i); start_action i] in
      match snd wr with
      | Some e => Run m' evs (inl e)
      | None =>
          match set_node state (node_name i) (node_record i) with
          | inl e => Run m' evs (inl e)
          | inr state' =>
              let r := start_nodes ctl existing rest state' m' in
              Run (after r) (evs ++ emitted r) (result r)
          end
      end
  end.
Proof.
  cbn [start_nodes]. unfold_monad.
  destruct (bool_decide (node_name i ∈ existing)); unfold_monad.
  - destruct (vnm_is_running ctl (node_name i) (driver m)) as [e|[|]];
      unfold_monad; try reflexivity.
    destruct (generator_start _ _ _ _ _) as [w [e|]]; unfold_monad;
      try reflexivity.
    destruct (set_node _ _ _); reflexivity.
  - destruct (generator_start _ _ _ _ _) as [w [e|]]; unfold_monad;
      try reflexivity.
    destruct (set_node _ _ _); reflexivity.
Qed.

Lemma stop_nodes_cons name rest (m : machine W) :
  stop_nodes (name :: rest) m =
  let wr := generator_stop name (driver m) in
  let m' := with_driver m (fst wr) in
  let evs := [Print ("Stopping: " ++ name); GenStop name] in
  match snd wr with
  | Some e => Run m' evs (inl e)
  | None =>
      let r := stop_nodes rest m' in
      Run (after r) (evs ++ emitted r) (result r)
  end.
Proof.
  cbn [stop_nodes]. unfold_monad.
  destruct (generator_stop name (driver m)) as [w [e|]]; reflexivity.
Qed.

Lemma status_nodes_cons ctl name rest (m : machine W) :
  status_nodes ctl (name :: rest) m =
  match vnm_status ctl name (driver m) with
  | inl e => Run m [] (inl e)
  | inr st =>
      let r := status_nodes ctl rest m in
      Run (after r) (status_line name st :: emitted r) (result r)
  end.
Proof.
  cbn [status_nodes]. unfold_monad.
  destruct (vnm_status ctl name (driver m)); reflexivity.
Qed.

End Loops.

(** ** Node records *)

Lemma record_started_cons i started (nodes : gmap string pyval) :
  record_started (i :: started) nodes =
  record_started started (<[node_name i := node_record i]> nodes).
Proof. reflexivity. Qed.

Lemma record_started_lookup started : forall (nodes : gmap string pyval) i,
  In i started \/ nodes !! node_name i = Some (node_record i) ->
  record_started started nodes !! node_name i = Some (node_record i).
Proof.
  induction started as [|j started IH]; intros nodes i Hi.
  - destruct Hi as [[]|Hi]. exact Hi.
  - rewrite record_started_cons. apply IH.
    destruct Hi as [[->|Hi]|Hi].
    + right. apply lookup_insert_eq.
    + left. exact Hi.
    + right. destruct (decide (node_name j = node_name i)) as [E|E].
      * apply node_name_inj in E. subst j. apply lookup_insert_eq.
      * rewrite lookup_insert_ne by exact E. exact Hi.
Qed.

Lemma record_started_keys started : forall (nodes : gmap string pyval) name v,
  record_started started nodes !! name = Some v ->
  nodes !! name = Some v \/
  exists i, In i started /\ name = node_name i /\ v = node_record i.
Proof.
  induction started as [|j started IH]; intros nodes name v Hv.
  - left. exact Hv.
  - rewrite record_started_cons in Hv. apply IH in Hv.
    destruct Hv as [Hv|(i & Hi & -> & ->)].
    + destruct (decide (node_name j = name)) as [E|E].
      * subst name. rewrite lookup_insert_eq in Hv. injection Hv as <-.
        right. exists j. split; [left; reflexivity|split; reflexivity].
      * rewrite lookup_insert_ne in Hv by exact E. left. exact Hv.
    + right. exists i. split; [right; exact Hi|split; reflexivity].
Qed.

Lemma record_started_other started : forall (nodes : gmap string pyval) name,
  (forall i, In i started -> node_name i <> name) ->
  record_started started nodes !! name = nodes !! name.
Proof.
  induction started as [|j started IH]; intros nodes name Hn.
  - reflexivity.
  - rewrite record_started_cons, IH.
    + apply lookup_insert_ne. apply Hn. left. reflexivity.
    + intros i Hi. apply Hn. right. exact Hi.
Qed.

(** ** The start loop *)

Section StartLoop.
Context {W : Type} `{NodeDriver W}.

(** What a run of the loop amounts to: start actions for a sublist of
    the ordinals, nothing but prints and start actions emitted, the state
    file untouched, and on success the records of the started ordinals
    written into [Nodes]. *)
Lemma start_nodes_run ctl existing ordinals :
  forall state (m : machine W),
    let r := start_nodes ctl existing ordinals state m in
    exists started,
      sublist started ordinals /\
      gen_starts (emitted r) = map start_action started /\
      forallb loop_event (emitted r) = true /\
      state_file (after r) = state_file m /\
      writable (after r) = writable m /\
      forall state', result r = inr state' ->
        (started = [] /\ state' = state) \/
        (exists nodes,
           state !! "Nodes" = Some (VDict nodes) /\
           state' = <["Nodes" := VDict (record_started started nodes)]> state).
Proof.
  induction ordinals as [|i rest IH]; intros state m r.
  - exists []. subst r. cbn. repeat apply conj; try reflexivity.
    intros state' [= <-]. left. split; reflexivity.
  - subst r. rewrite start_nodes_cons.
    destruct (if bool_decide (node_name i ∈ existing)
              then vnm_is_running ctl (node_name i) (driver m)
              else inr false) as [e|[|]].
    + exists []. cbn. repeat apply conj; try reflexivity.
      * apply sublist_nil_l.
      * discriminate.
    + destruct (IH state m) as (started & Hsub & Hev & Hloop & Hf & Hw & Hres).
      exists started. cbn -[start_nodes].
      repeat apply conj; try assumption.
      apply sublist_cons. exact Hsub.
    + destruct (generator_start (node_name i) 8800 5500 (Nat.eqb i 0) (driver m))
        as [w oe]. cbn [fst snd].
      destruct oe as [e|].
      { exists [i]. cbn. repeat apply conj; try reflexivity.
        - apply sublist_skip, sublist_nil_l.
        - discriminate. }
      destruct (set_node state (node_name i) (node_record i)) as [e|state1] eqn:Eset.
      { exists [i]. cbn. repeat apply conj; try reflexivity.
        - apply sublist_skip, sublist_nil_l.
        - discriminate. }
      destruct (IH state1 (with_driver m w))
        as (started & Hsub & Hev & Hloop & Hf & Hw & Hres).
      exists (i :: started). cbn -[start_nodes].
      repeat apply conj; try assumption.
      * apply sublist_skip. exact Hsub.
      * unfold gen_starts in Hev. rewrite Hev. reflexivity.
      * intros state' Hok. right.
        unfold set_node in Eset.
        destruct (state !! "Nodes") as [[| | | | |nodes]|] eqn:En;
          try discriminate.
        injection Eset as <-. exists nodes. split; [reflexivity|].
        destruct (Hres state' Hok) as [[-> ->]|(nodes1 & Hn1 & ->)].
        -- reflexivity.
        -- rewrite lookup_insert_eq in Hn1. injection Hn1 as <-.
           rewrite insert_insert_eq. reflexivity.
Qed.

(** A node the controller lists and sees running is passed over. *)
Lemma start_nodes_skip ctl existing i rest state (m : machine W) :
  node_name i ∈ existing ->
  vnm_is_running ctl (node_name i) (driver m) = inr true ->
  start_nodes ctl existing (i :: rest) state m =
  (emit (Print ("Already running: " ++ node_name i)) ;;;
   start_nodes ctl existing rest state) m.
Proof.
  intros Hin Hrun. rewrite start_nodes_cons.
  rewrite bool_decide_eq_true_2 by exact Hin. rewrite Hrun.
  reflexivity.
Qed.

(** A node the controller does not list, or sees stopped, gets its start
    action, whatever happens next. *)
Lemma start_nodes_first ctl existing i rest state (m : machine W) :
  node_name i ∉ existing \/
  vnm_is_running ctl (node_name i) (driver m) = inr false ->
  In (start_action i) (emitted (start_nodes ctl existing (i :: rest) state m)).
Proof.
  intros Hdown. rewrite start_nodes_cons.
  assert (E : (if bool_decide (node_name i ∈ existing)
               then vnm_is_running ctl (node_name i) (driver m)
               else inr false) = inr false).
  { destruct Hdown as [Hout|Hstopped].
    - rewrite bool_decide_eq_false_2 by exact Hout. reflexivity.
    - rewrite Hstopped. destruct (bool_decide _); reflexivity. }
  rewrite E. cbv zeta.
  destruct (snd (generator_start (node_name i) 8800 5500 (Nat.eqb i 0) (driver m)));
    [right; left; reflexivity|].
  destruct (set_node state (node_name i) (node_record i));
    cbn [emitted]; right; left; reflexivity.
Qed.

(** When every ordinal is reported running the loop only prints. *)
Lemma start_nodes_all_running ctl existing ordinals state (m : machine W) :
  (forall i, In i ordinals ->
     node_name i ∈ existing /\
     vnm_is_running ctl (node_name i) (driver m) = inr true) ->
  start_nodes ctl existing ordinals state m =
  Run m (map (fun i => Print ("Already running: " ++ node_name i)) ordinals)
      (inr state).
Proof.
  induction ordinals as [|i rest IH]; intros Hall.
  - reflexivity.
  - destruct (Hall i (or_introl eq_refl)) as [Hin Hrun].
    rewrite start_nodes_skip by assumption.
    unfold_monad. rewrite IH.
    + reflexivity.
    + intros j Hj. apply Hall. right. exact Hj.
Qed.

(** The loop with its [xrange]. *)
Lemma start_loop_run ctl existing count state (m : machine W) :
  start_loop ctl existing count state m =
  if fits_c_long count
  then start_nodes ctl existing (xrange0 count) state m
  else Run m [] (inl OverflowError).
Proof.
  unfold start_loop, xrange. unfold_monad.
  destruct (fits_c_long count); unfold_monad; [|reflexivity].
  destruct (start_nodes ctl existing (xrange0 count) state m); reflexivity.
Qed.

(** [start_nodes_run] for the loop with its [xrange]. *)
Lemma start_loop_facts ctl existing count state (m : machine W) :
  let r := start_loop ctl existing count state m in
  exists started,
    sublist started (xrange0 count) /\
    gen_starts (emitted r) = map start_action started /\
    forallb loop_event (emitted r) = true /\
    state_file (after r) = state_file m /\
    writable (after r) = writable m /\
    forall state', result r = inr state' ->
      (started = [] /\ state' = state) \/
      (exists nodes,
         state !! "Nodes" = Some (VDict nodes) /\
         state' = <["Nodes" := VDict (record_started started nodes)]> state).
Proof.
  cbv zeta. rewrite start_loop_run.
  destruct (fits_c_long count).
  - apply start_nodes_run.
  - exists []. cbn. repeat apply conj; try reflexivity.
    + apply sublist_nil_l.
    + discriminate.
Qed.

(** A loop that returns had a count [xrange] accepts. *)
Lemma start_loop_ok_fits ctl existing count state (m : machine W) state' :
  result (start_loop ctl existing count state m) = inr state' ->
  fits_c_long count = true.
Proof.
  rewrite start_loop_run. destruct (fits_c_long count); [reflexivity|].
  discriminate.
Qed.

End StartLoop.

(** ** Before the loop *)

Lemma settle_manage_ok a (state st : gmap string pyval) :
  settle_manage a state = inr st ->
  st !! "State" = Some (VStr "Running") /\
  (state !! "State" = Some (VStr "Stopped") -> st !! "Nodes" = Some (VDict ∅)) /\
  (exists recorded, st !! "Manage" = Some recorded) /\
  (forall recorded, state !! "Manage" = Some recorded ->
     st !! "Manage" = Some recorded) /\
  (forall lifecycle, state !! "State" = Some lifecycle ->
     py_eq_str lifecycle "Stopped" = false ->
     st !! "Nodes" = state !! "Nodes").
Proof.
  unfold settle_manage. cbn [py_getitem].
  destruct (state !! "State") as [lifecycle|] eqn:ES; [|discriminate].
  set (state1 := if py_eq_str lifecycle "Stopped"
                 then <["Nodes" := VDict ∅]> state else state).
  assert (Hm : forall recorded, state !! "Manage" = Some recorded ->
                 state1 !! "Manage" = Some recorded).
  { intros recorded Hr. subst state1.
    destruct (py_eq_str lifecycle "Stopped"); [|exact Hr].
    rewrite lookup_insert_ne by discriminate. exact Hr. }
  assert (Hn : lifecycle = VStr "Stopped" ->
               state1 !! "Nodes" = Some (VDict ∅)).
  { intros ->. subst state1. cbn [py_eq_str String.eqb Ascii.eqb Bool.eqb].
    apply lookup_insert_eq. }
  assert (Hk : py_eq_str lifecycle "Stopped" = false ->
               state1 !! "Nodes" = state !! "Nodes").
  { intros E. subst state1. rewrite E. reflexivity. }
  clearbody state1. intros Hst.
  assert (Hex : exists state2 : gmap string pyval,
             st = <["State" := VStr "Running"]> state2 /\
             (forall k, k <> "Manage" -> state2 !! k = state1 !! k) /\
             (forall recorded, state1 !! "Manage" = Some recorded ->
                state2 !! "Manage" = Some recorded) /\
             (exists recorded, state2 !! "Manage" = Some recorded)).
  { destruct (state1 !! "Manage") as [recorded|] eqn:EM.
    - assert (Hsame : @inr exn _ (<["State" := VStr "Running"]> state1) = inr st ->
                exists state2 : gmap string pyval,
                  st = <["State" := VStr "Running"]> state2 /\
                  (forall k, k <> "Manage" -> state2 !! k = state1 !! k) /\
                  (forall recorded0, Some recorded = Some recorded0 ->
                     state2 !! "Manage" = Some recorded0) /\
                  (exists recorded0, state2 !! "Manage" = Some recorded0)).
      { intros [= <-]. exists state1. repeat apply conj.
        - reflexivity.
        - reflexivity.
        - intros ? [= <-]. exact EM.
        - exists recorded. exact EM. }
      destruct (manage a) as [requested|]; [|exact (Hsame Hst)].
      destruct (negb (py_eq_str recorded requested) && py_eq_str lifecycle "Running");
        [discriminate|exact (Hsame Hst)].
    - injection Hst as <-. eexists. repeat apply conj.
      + reflexivity.
      + intros k Hne. apply lookup_insert_ne. congruence.
      + discriminate.
      + eexists. apply lookup_insert_eq. }
  destruct Hex as (state2 & -> & Hsame & Hkeep & rec & Hrec).
  repeat apply conj.
  - apply lookup_insert_eq.
  - intros [= ->]. rewrite lookup_insert_ne by discriminate.
    rewrite Hsame by discriminate. apply Hn. reflexivity.
  - exists rec. rewrite lookup_insert_ne by discriminate. exact Hrec.
  - intros recorded Hr. rewrite lookup_insert_ne by discriminate.
    apply Hkeep, Hm, Hr.
  - intros lc [= <-] Hlc. rewrite lookup_insert_ne by discriminate.
    rewrite Hsame by discriminate. apply Hk, Hlc.
Qed.

(** A second management type is refused while the cluster runs. *)
Lemma settle_manage_conflict a (state : gmap string pyval) recorded requested :
  state !! "State" = Some (VStr "Running") ->
  state !! "Manage" = Some recorded ->
  manage a = Some requested ->
  py_eq_str recorded requested = false ->
  settle_manage a state = inl (CliException (TwoManageTypes recorded)).
Proof.
  intros ES EM Ea Ene. unfold settle_manage. cbn [py_getitem].
  rewrite ES.
  change (py_eq_str (VStr "Running") "Stopped") with false.
  change (py_eq_str (VStr "Running") "Running") with true.
  cbv iota. rewrite EM, Ea, Ene. reflexivity.
Qed.

Section StartCommand.
Context {W : Type} `{NodeDriver W}.

Lemma load_or_stopped_run (m : machine W) :
  load_or_stopped m =
  Run m [] (match state_file m with
            | Missing => inr (VDict {["State" := VStr "Stopped"]})
            | Unparsable => inl YAMLError
            | Document doc => inr doc
            end).
Proof.
  unfold load_or_stopped, read_state. unfold_monad.
  destruct (state_file m); reflexivity.
Qed.

Lemma start_settle_run a (state : gmap string pyval) (m : machine W) :
  start_settle a state m =
  Run m []
    match settle_manage a state with
    | inl e => inl e
    | inr st =>
        match py_getitem (VDict st) "Manage" with
        | inl e => inl e
        | inr recorded =>
            match start_controller recorded with
            | inl e => inl e
            | inr ctl =>
                match vnm_get_node_names ctl (driver m) with
                | inl e => inl (wrap_management e)
                | inr existing => inr (st, ctl, existing)
                end
            end
        end
    end.
Proof.
  unfold start_settle. unfold_monad.
  destruct (settle_manage a state) as [e|st]; unfold_monad; [reflexivity|].
  destruct (py_getitem (VDict st) "Manage") as [e|recorded]; unfold_monad;
    [reflexivity|].
  destruct (start_controller recorded) as [e|ctl]; unfold_monad;
    [reflexivity|].
  destruct (vnm_get_node_names ctl (driver m)) as [e|existing];
    reflexivity.
Qed.

End StartCommand.

Section StartRun.
Context {W : Type} `{NodeDriver W}.

Lemma run_eta {A} (r : run W A) : Run (after r) (emitted r) (result r) = r.
Proof. destruct r; reflexivity. Qed.

Lemma bind_ok {A B} (c : M W A) (k : A -> M W B) m m' evs x :
  c m = Run m' evs (inr x) ->
  bind c k m = Run (after (k x m')) (evs ++ emitted (k x m')) (result (k x m')).
Proof. intros E. unfold bind. rewrite E. reflexivity. Qed.

Lemma bind_err {A B} (c : M W A) (k : A -> M W B) m m' evs e :
  c m = Run m' evs (inl e) ->
  bind c k m = Run m' evs (inl e).
Proof. intros E. unfold bind. rewrite E. reflexivity. Qed.

Lemma bind_pure_run {A B} (c : M W A) (k : A -> M W B) m x r :
  c m = Run m [] (inr x) ->
  k x m = r ->
  bind c k m = r.
Proof.
  intros E <-. rewrite (bind_ok _ _ _ _ _ _ E). apply run_eta.
Qed.

Lemma bind_pure {A B} (c : M W A) (k : A -> M W B) m x :
  c m = Run m [] (inr x) ->
  bind c k m = k x m.
Proof. intros E. rewrite (bind_ok _ _ _ _ _ _ E). apply run_eta. Qed.

(** Everything before the loop leaves the machine alone and emits
    nothing; when it succeeds the state it hands to the loop is marked
    running, has no nodes if the cluster was stopped, keeps a recorded
    management type, and comes with that type's controller and the
    names the controller lists. *)
Lemma start_resolve_run a (m : machine W) :
  exists res,
    start_resolve a m = Run m [] res /\
    forall st ctl existing, res = inr (st, ctl, existing) ->
      st !! "State" = Some (VStr "Running") /\
      (prior_stopped m -> st !! "Nodes" = Some (VDict ∅)) /\
      (exists recorded,
         st !! "Manage" = Some recorded /\
         start_controller recorded = inr ctl) /\
      (forall ctl', recorded_controller m = Some ctl' -> ctl' = ctl) /\
      vnm_get_node_names ctl (driver m) = inr existing /\
      (forall (loaded : gmap string pyval) lifecycle,
         state_file m = Document (VDict loaded) ->
         loaded !! "State" = Some lifecycle ->
         py_eq_str lifecycle "Stopped" = false ->
         st !! "Nodes" = loaded !! "Nodes").
Proof.
  assert (Hsettle : forall state0 : gmap string pyval,
    (prior_stopped m -> state0 !! "State" = Some (VStr "Stopped")) ->
    (forall ctl', recorded_controller m = Some ctl' ->
       exists recorded, state0 !! "Manage" = Some recorded /\
                        start_controller recorded = inr ctl') ->
    (forall loaded : gmap string pyval,
       state_file m = Document (VDict loaded) -> loaded = state0) ->
    exists res,
      start_settle a state0 m = Run m [] res /\
      forall st ctl existing, res = inr (st, ctl, existing) ->
        st !! "State" = Some (VStr "Running") /\
        (prior_stopped m -> st !! "Nodes" = Some (VDict ∅)) /\
        (exists recorded,
           st !! "Manage" = Some recorded /\
           start_controller recorded = inr ctl) /\
        (forall ctl', recorded_controller m = Some ctl' -> ctl' = ctl) /\
        vnm_get_node_names ctl (driver m) = inr existing /\
        (forall (loaded : gmap string pyval) lifecycle,
           state_file m = Document (VDict loaded) ->
           loaded !! "State" = Some lifecycle ->
           py_eq_str lifecycle "Stopped" = false ->
           st !! "Nodes" = loaded !! "Nodes")).
  { intros state0 Hstopped Hrec Hdoc. rewrite start_settle_run.
    eexists. split; [reflexivity|].
    intros st ctl existing.
    destruct (settle_manage a state0) as [e|st1] eqn:E1; [discriminate|].
    apply settle_manage_ok in E1.
    destruct E1 as (Hs & Hn & _ & Hkeep & Hnodes).
    cbn [py_getitem].
    destruct (st1 !! "Manage") as [recorded|] eqn:EM; [|discriminate].
    destruct (start_controller recorded) as [e|ctl1] eqn:EC; [discriminate|].
    destruct (vnm_get_node_names ctl1 (driver m)) as [e|ex1] eqn:EX;
      [discriminate|].
    intros [= <- <- <-]. repeat apply conj.
    - exact Hs.
    - intros Hp. apply Hn, Hstopped, Hp.
    - exists recorded. split; assumption.
    - intros ctl' Hc. destruct (Hrec ctl' Hc) as (rec0 & Hr0 & Hc0).
      apply Hkeep in Hr0. injection Hr0 as <-. congruence.
    - exact EX.
    - intros loaded lc Hf Hl Hlc. apply Hdoc in Hf. subst loaded.
      exact (Hnodes lc Hl Hlc). }
  unfold start_resolve. unfold bind. rewrite load_or_stopped_run.
  cbn [after emitted result app].
  unfold prior_stopped, recorded_controller in *.
  destruct (state_file m) as [| |doc] eqn:EF.
  - destruct (Hsettle {["State" := VStr "Stopped"]}) as (res & Hrun & Hres).
    + intros _. apply lookup_singleton_eq.
    + discriminate.
    + discriminate.
    + rewrite Hrun. exists res. split; [reflexivity|exact Hres].
  - eexists. split; [reflexivity|discriminate].
  - destruct doc as [| | | | |state0];
      try (eexists; split; [reflexivity|discriminate]).
    destruct (Hsettle state0) as (res & Hrun & Hres).
    + intros [[=]|(state & [= <-] & Hs)]. exact Hs.
    + intros ctl'. destruct (state0 !! "Manage") as [rec0|]; [|discriminate].
      destruct (start_controller rec0) as [e|c] eqn:EC; [discriminate|].
      intros [= <-]. exists rec0. split; [reflexivity|exact EC].
    + intros loaded [= <-]. reflexivity.
    + rewrite Hrun. exists res. split; [reflexivity|exact Hres].
Qed.

(** The command, cut at its steps. *)
Lemma do_cluster_start_run a (m : machine W) :
  do_cluster_start a m =
  match result (start_resolve a m) with
  | inl e => Run m [] (inl e)
  | inr (state, ctl, existing) =>
      let r1 := start_loop ctl existing (count a) state m in
      match result r1 with
      | inl e => Run (after r1) (emitted r1) (inl e)
      | inr state' =>
          if writable m then
            let wr := vnm_update ctl (driver (after r1)) in
            Run (Machine (Document (VDict state')) true (fst wr))
              (emitted r1 ++ [WriteState (VDict state'); VnmUpdate])
              (match snd wr with
               | Some e => inl (wrap_management e)
               | None => inr tt
               end)
          else Run (after r1) (emitted r1) (inl IOError)
      end
  end.
Proof.
  unfold do_cluster_start.
  destruct (start_resolve_run a m) as (res & Hrun & _). rewrite Hrun.
  cbn [result].
  destruct res as [e|[[state ctl] existing]].
  { apply bind_err. exact Hrun. }
  rewrite (bind_pure _ _ _ _ Hrun).
  destruct (start_loop_facts ctl existing (count a) state m)
    as (started & _ & _ & _ & _ & Hw & _).
  destruct (start_loop ctl existing (count a) state m)
    as [m1 evs1 [e|state']] eqn:E1.
  { apply bind_err. exact E1. }
  rewrite (bind_ok _ _ _ _ _ _ E1).
  cbn [after emitted result] in *.
  unfold write_state. unfold_monad. rewrite Hw.
  destruct (writable m); cbn [after emitted result app];
    [|rewrite app_nil_r; reflexivity].
  unfold with_driver. cbn [state_file writable driver].
  destruct (vnm_update ctl (driver m1)) as [w [e|]]; reflexivity.
Qed.

End StartRun.

(** ** Stop and status *)

Lemma stop_events_app (l1 l2 : list string) :
  stop_events (l1 ++ l2) = (stop_events l1 ++ stop_events l2)%list.
Proof. unfold stop_events. apply flat_map_app. Qed.

Lemma stop_targets_app (evs1 evs2 : list event) :
  stop_targets (evs1 ++ evs2) = (stop_targets evs1 ++ stop_targets evs2)%list.
Proof.
  induction evs1 as [|ev evs1 IH]; [reflexivity|].
  destruct ev; cbn [stop_targets app]; rewrite IH; reflexivity.
Qed.

Lemma stop_targets_stop_events (names : list string) :
  stop_targets (stop_events names) = names.
Proof.
  induction names as [|name names IH]; [reflexivity|].
  cbn. f_equal. exact IH.
Qed.

Lemma In_stop_events ev (names : list string) :
  In ev (stop_events names) ->
  exists name, In name names /\
    (ev = Print ("Stopping: " ++ name) \/ ev = GenStop name).
Proof.
  unfold stop_events. rewrite in_flat_map.
  intros (name & Hin & [<-|[<-|[]]]); exists name; auto.
Qed.

Section StopStatus.
Context {W : Type} `{NodeDriver W}.

(** The stop loop hands a prefix of the names to the generator, all of
    them when nothing raises, and leaves the state file alone. *)
Lemma stop_nodes_run names : forall m : machine W,
  let r := stop_nodes names m in
  state_file (after r) = state_file m /\
  writable (after r) = writable m /\
  exists handed,
    handed `prefix_of` names /\
    emitted r = stop_events handed /\
    (result r = inr tt -> handed = names).
Proof.
  induction names as [|name rest IH]; intros m r; subst r.
  - cbn. repeat apply conj; try reflexivity.
    exists []. repeat apply conj; reflexivity.
  - rewrite stop_nodes_cons.
    destruct (generator_stop name (driver m)) as [w [e|]]; cbn [fst snd].
    + cbn. repeat apply conj; try reflexivity.
      exists [name]. repeat apply conj.
      * apply prefix_cons, prefix_nil.
      * reflexivity.
      * discriminate.
    + destruct (IH (with_driver m w)) as (Hf & Hw & handed & Hp & Hev & Hok).
      cbn [after emitted result]. repeat apply conj; try assumption.
      exists (name :: handed). repeat apply conj.
      * apply prefix_cons. exact Hp.
      * rewrite Hev. reflexivity.
      * intros Hr. f_equal. apply Hok. exact Hr.
Qed.

(** When the generator raises at [name] the names after it are dropped. *)
Lemma stop_nodes_raise pre name post e : forall m : machine W,
  let r0 := stop_nodes pre m in
  result r0 = inr tt ->
  snd (generator_stop name (driver (after r0))) = Some e ->
  stop_nodes (pre ++ name :: post) m =
  Run (with_driver (after r0) (fst (generator_stop name (driver (after r0)))))
      (stop_events (pre ++ [name])) (inl e).
Proof.
  induction pre as [|p pre IH]; intros m r0 Hok He; subst r0.
  - cbn [app] in *. rewrite stop_nodes_cons.
    cbn [stop_nodes ret after] in He. cbn [fst snd]. rewrite He.
    reflexivity.
  - cbn [app]. rewrite (stop_nodes_cons p (pre ++ name :: post)).
    rewrite (stop_nodes_cons p pre) in Hok, He |- *.
    destruct (generator_stop p (driver m)) as [w [e'|]]; cbn [fst snd] in *;
      [discriminate|].
    cbn [after result] in Hok, He.
    rewrite (IH _ Hok He). cbn [after emitted result]. reflexivity.
Qed.

(** The status loop prints a line for a prefix of the names, all of them
    when nothing raises, and leaves the machine alone. *)
Lemma status_nodes_run ctl names : forall m : machine W,
  let r := status_nodes ctl names m in
  after r = m /\
  exists sts,
    (length sts <= length names)%nat /\
    Forall2 (fun name st => vnm_status ctl name (driver m) = inr st)
            (take (length sts) names) sts /\
    emitted r = zip_with status_line names sts /\
    (result r = inr tt -> length sts = length names).
Proof.
  induction names as [|name rest IH]; intros m r; subst r.
  - cbn. split; [reflexivity|]. exists []. repeat apply conj; try reflexivity.
    constructor.
  - rewrite status_nodes_cons.
    destruct (vnm_status ctl name (driver m)) as [e|st] eqn:Est.
    + cbn. split; [reflexivity|]. exists [].
      repeat apply conj; try reflexivity;
        [cbn [length]; lia|constructor|discriminate].
    + destruct (IH m) as (Ha & sts & Hlen & Hall & Hev & Hok).
      cbn [after emitted result]. split; [exact Ha|].
      exists (st :: sts). cbn [length take zip_with].
      repeat apply conj.
      * lia.
      * constructor; assumption.
      * rewrite Hev. reflexivity.
      * intros Hr. f_equal. apply Hok. exact Hr.
Qed.

(** When the status of [name] cannot be told the names after it are
    dropped. *)
Lemma status_nodes_raise ctl pre name post e sts : forall m : machine W,
  Forall2 (fun n st => vnm_status ctl n (driver m) = inr st) pre sts ->
  vnm_status ctl name (driver m) = inl e ->
  status_nodes ctl (pre ++ name :: post) m =
  Run m (zip_with status_line pre sts) (inl e).
Proof.
  intros m Hall He. induction Hall as [|p st pre sts Hp Hall IH].
  - cbn [app]. rewrite status_nodes_cons, He. reflexivity.
  - cbn [app]. rewrite status_nodes_cons, Hp, IH. reflexivity.
Qed.

Lemma do_cluster_stop_run a (m : machine W) :
  do_cluster_stop a m =
  match state_file m with
  | Missing => Run m [] (inl (CliException StrOfIOError))
  | Unparsable => Run m [] (inl YAMLError)
  | Document doc =>
      match py_getitem doc "Manage" with
      | inl e => Run m [] (inl e)
      | inr recorded =>
          match stop_controller recorded with
          | inl e => Run m [] (inl e)
          | inr ctl =>
              match resolved_names a ctl (driver m) with
              | inl e => Run m [] (inl e)
              | inr names =>
                  let r1 := stop_nodes names m in
                  match result r1 with
                  | inl e => Run (after r1) (emitted r1) (inl e)
                  | inr _ =>
                      let wr := vnm_update ctl (driver (after r1)) in
                      Run (with_driver (after r1) (fst wr))
                          (emitted r1 ++ [VnmUpdate])
                          (match snd wr with
                           | Some e => inl e
                           | None => inr tt
                           end)
                  end
              end
          end
      end
  end.
Proof.
  unfold do_cluster_stop, resolved_names.
  assert (Hload : catch read_state
            (fun e => match e with
                      | IOError => raise (CliException StrOfIOError)
                      | _ => raise e
                      end) m =
          Run m [] (match state_file m with
                    | Missing => inl (CliException StrOfIOError)
                    | Unparsable => inl YAMLError
                    | Document doc => inr doc
                    end)).
  { unfold read_state. unfold_monad. destruct (state_file m); reflexivity. }
  destruct (state_file m) as [| |doc];
    try (apply bind_err; exact Hload).
  rewrite (bind_pure _ _ _ _ Hload).
  destruct (py_getitem doc "Manage") as [e|recorded];
    [apply bind_err; reflexivity|].
  rewrite (bind_pure _ _ m recorded eq_refl).
  destruct (stop_controller recorded) as [e|ctl];
    [apply bind_err; reflexivity|].
  rewrite (bind_pure _ _ m ctl eq_refl).
  assert (Hnames :
    (if Nat.ltb 0 (List.length (node_names a))
     then ret (node_names a)
     else query (vnm_get_node_names ctl)) m =
    Run m [] (if Nat.ltb 0 (List.length (node_names a))
              then inr (node_names a)
              else vnm_get_node_names ctl (driver m))).
  { destruct (Nat.ltb 0 (List.length (node_names a))); reflexivity. }
  destruct (if Nat.ltb 0 (List.length (node_names a))
            then inr (node_names a)
            else vnm_get_node_names ctl (driver m)) as [e|names].
  { apply bind_err. exact Hnames. }
  rewrite (bind_pure _ _ _ _ Hnames).
  destruct (stop_nodes names m) as [m1 evs1 [e|[]]] eqn:E1.
  { apply bind_err. exact E1. }
  rewrite (bind_ok _ _ _ _ _ _ E1). unfold_monad.
  destruct (vnm_update ctl (driver m1)) as [w [e|]]; reflexivity.
Qed.

Lemma do_cluster_status_run a (m : machine W) :
  do_cluster_status a m =
  match status_controller (manage a) with
  | inl e => Run m [] (inl e)
  | inr ctl =>
      match resolved_names a ctl (driver m) with
      | inl e => Run m [] (inl e)
      | inr names => status_nodes ctl names m
      end
  end.
Proof.
  unfold do_cluster_status, resolved_names.
  destruct (status_controller (manage a)) as [e|ctl];
    [apply bind_err; reflexivity|].
  rewrite (bind_pure _ _ m ctl eq_refl).
  assert (Hnames :
    (if Nat.ltb 0 (List.length (node_names a))
     then ret (node_names a)
     else query (vnm_get_node_names ctl)) m =
    Run m [] (if Nat.ltb 0 (List.length (node_names a))
              then inr (node_names a)
              else vnm_get_node_names ctl (driver m))).
  { destruct (Nat.ltb 0 (List.length (node_names a))); reflexivity. }
  destruct (if Nat.ltb 0 (List.length (node_names a))
            then inr (node_names a)
            else vnm_get_node_names ctl (driver m)) as [e|names].
  { apply bind_err. exact Hnames. }
  apply bind_pure. exact Hnames.
Qed.

End StopStatus.

(** ** Start actions in a trace *)

Lemma gen_starts_app (evs1 evs2 : list event) :
  gen_starts (evs1 ++ evs2) = (gen_starts evs1 ++ gen_starts evs2)%list.
Proof. apply List.filter_app. Qed.

Lemma In_gen_starts ev (evs : list event) :
  In ev (gen_starts evs) <-> In ev evs /\ is_gen_start ev = true.
Proof. apply List.filter_In. Qed.

Lemma genesis_starts_of_gen_starts (evs : list event) :
  List.filter is_genesis_start evs = List.filter is_genesis_start (gen_starts evs).
Proof.
  induction evs as [|ev evs IH]; [reflexivity|].
  destruct ev as [| name http gossip [|] | | |]; cbn;
    try exact IH.
  f_equal. exact IH.
Qed.

Lemma genesis_starts_no_zero (started : list nat) :
  ~ In 0 started ->
  List.filter is_genesis_start (map start_action started) = [].
Proof.
  induction started as [|[|i] started IH]; intros Hn.
  - reflexivity.
  - exfalso. apply Hn. left. reflexivity.
  - cbn. apply IH. intros Hin. apply Hn. right. exact Hin.
Qed.

Lemma genesis_starts_at_most_one (started : list nat) :
  NoDup started ->
  (length (List.filter is_genesis_start (map start_action started)) <= 1)%nat.
Proof.
  induction 1 as [|i started Hni Hnd IH]; [cbn; lia|].
  destruct i as [|i]; cbn.
  - rewrite genesis_starts_no_zero; [cbn; lia|].
    intros Hin. apply Hni. apply list_elem_of_In. exact Hin.
  - exact IH.
Qed.

Lemma In_xrange0 (i : nat) (n : Z) : In i (xrange0 n) <-> (Z.of_nat i < n)%Z.
Proof. unfold xrange0. rewrite in_seq. lia. Qed.

Lemma gen_starts_already_running (ordinals : list nat) :
  gen_starts (map (fun i => Print ("Already running: " ++ node_name i)) ordinals) = [].
Proof. induction ordinals as [|i l IH]; [reflexivity|exact IH]. Qed.

Lemma loop_events_no_write (evs : list event) doc :
  forallb loop_event evs = true -> ~ In (WriteState doc) evs.
Proof.
  rewrite forallb_forall. intros Hall Hin. apply Hall in Hin. discriminate.
Qed.

(** ** The start command *)

Section StartCases.
Context {W : Type} `{NodeDriver W}.

(** How a start ends: before the loop, with nothing done; in the loop
    or at the write, with the loop's trace; or past the write, with the
    state the loop returned on file. *)
Lemma do_cluster_start_cases a (m : machine W) :
  let r := do_cluster_start a m in
  (exists e, r = Run m [] (inl e)) \/
  exists state ctl existing,
    start_resolve a m = Run m [] (inr (state, ctl, existing)) /\
    let r1 := start_loop ctl existing (count a) state m in
    ((exists e, r = Run (after r1) (emitted r1) (inl e) /\
                (writable m = true -> result r1 = inl e)) \/
     (exists state',
        result r1 = inr state' /\
        writable m = true /\
        emitted r = (emitted r1 ++ [WriteState (VDict state'); VnmUpdate])%list /\
        state_file (after r) = Document (VDict state') /\
        result r = match snd (vnm_update ctl (driver (after r1))) with
                   | Some e => inl (wrap_management e)
                   | None => inr tt
                   end)).
Proof.
  intros r. subst r. rewrite do_cluster_start_run.
  destruct (start_resolve_run a m) as (res & Hrun & _). rewrite Hrun.
  cbn [result].
  destruct res as [e|[[state ctl] existing]].
  { left. exists e. reflexivity. }
  right. exists state, ctl, existing. split; [reflexivity|].
  cbv zeta. set (r1 := start_loop ctl existing (count a) state m).
  destruct (result r1) as [e|state'] eqn:E1.
  { left. exists e. split; [reflexivity|]. reflexivity. }
  destruct (writable m) eqn:Ew.
  - right. exists state'. repeat apply conj; reflexivity.
  - left. exists IOError. split; [reflexivity|discriminate].
Qed.

(** A start that succeeds had a count [xrange] accepts. *)
Lemma start_ok_fits a (m : machine W) :
  result (do_cluster_start a m) = inr tt ->
  fits_c_long (count a) = true.
Proof.
  intros Hok.
  destruct (do_cluster_start_cases a m) as [[e He]|Hc].
  { rewrite He in Hok. discriminate. }
  destruct Hc as (state & ctl & existing & _ & [(e & He & _)|Hc]).
  { rewrite He in Hok. discriminate. }
  destruct Hc as (state' & Hr1 & _).
  exact (start_loop_ok_fits _ _ _ _ _ _ Hr1).
Qed.

End StartCases.

(** * The claims *)

Section StartClaims.
Context {W : Type} `{NodeDriver W}.

(** C1. When a management type is requested, the state document records
    a different one and its [State] is ["Running"], [do_cluster_start]
    raises the [CliException] "Cannot use two different Manage types"
    and leaves the machine as it found it: nothing is emitted and the
    state file, with its recorded management type, is unchanged. *)
Theorem start_refuses_second_manage_type a (m : machine W)
    (state : gmap string pyval) recorded requested :
  state_file m = Document (VDict state) ->
  state !! "State" = Some (VStr "Running") ->
  state !! "Manage" = Some recorded ->
  manage a = Some requested ->
  py_eq_str recorded requested = false ->
  do_cluster_start a m =
  Run m [] (inl (CliException (TwoManageTypes recorded))).
Proof.
  intros EF ES EM Ea Ene. rewrite do_cluster_start_run.
  assert (Hres : start_resolve a m =
                 Run m [] (inl (CliException (TwoManageTypes recorded)))).
  { unfold start_resolve. apply bind_pure_run with (x := VDict state).
    - rewrite load_or_stopped_run, EF. reflexivity.
    - rewrite start_settle_run.
      rewrite (settle_manage_conflict a state recorded requested ES EM Ea Ene).
      reflexivity. }
  rewrite Hres. reflexivity.
Qed.

(** C2: the statement fails when the controller already sees a node
    running.  With no state file, a count of one and validator-000 up,
    the start succeeds and the persisted [Nodes] stays empty. *)
Lemma start_skipped_node_not_recorded :
  ~ start_records_every_ordinal (Runs.start 1 None)
      (Runs.fresh TestDriver.genesis_up).
Proof.
  intros Hall.
  destruct (Hall eq_refl 0%nat eq_refl) as (nodes & Hp & Hn).
  vm_compute in Hp. injection Hp as <-. vm_compute in Hn. discriminate Hn.
Qed.

(** C2, as the code has it.  After a successful start every ordinal for
    which a start action was issued is recorded under its name with
    status Running and its index.  An ordinal that was passed over as
    already running is not written: when the cluster was stopped before
    (or had no state file) it has no record, and otherwise its name maps
    to whatever the loaded [Nodes] mapped it to. *)
Theorem start_records_started_ordinals a (m : machine W) :
  result (do_cluster_start a m) = inr tt ->
  forall i : nat,
    (In (start_action i) (emitted (do_cluster_start a m)) ->
     (Z.of_nat i < count a)%Z /\
     records_running (after (do_cluster_start a m)) i) /\
    (prior_stopped m ->
     ~ In (start_action i) (emitted (do_cluster_start a m)) ->
     ~ records_running (after (do_cluster_start a m)) i) /\
    (forall (loaded nodes0 : gmap string pyval) lifecycle,
       state_file m = Document (VDict loaded) ->
       loaded !! "State" = Some lifecycle ->
       py_eq_str lifecycle "Stopped" = false ->
       loaded !! "Nodes" = Some (VDict nodes0) ->
       ~ In (start_action i) (emitted (do_cluster_start a m)) ->
       exists nodes,
         persisted_nodes (after (do_cluster_start a m)) = Some nodes /\
         nodes !! node_name i = nodes0 !! node_name i).
Proof.
  intros Hok i.
  destruct (do_cluster_start_cases a m) as [[e He]|Hc].
  { rewrite He in Hok. discriminate. }
  destruct Hc as (state & ctl & existing & Hres & [(e & He & _)|Hc]).
  { rewrite He in Hok. discriminate. }
  destruct Hc as (state' & Hr1 & _ & Hev & Hfile & _).
  destruct (start_loop_facts ctl existing (count a) state m)
    as (started & Hsub & Hgs & Hloop & _ & _ & Hstate).
  specialize (Hstate state' Hr1).
  assert (Hin : In (start_action i) (emitted (do_cluster_start a m)) <->
                In i started).
  { rewrite Hev. rewrite in_app_iff. split.
    - intros [Hi|[[=]|[[=]|[]]]].
      assert (Hg : In (start_action i) (map start_action started)).
      { rewrite <- Hgs. apply In_gen_starts. split; [exact Hi|reflexivity]. }
      apply in_map_iff in Hg. destruct Hg as (j & Hj & Hjs).
      apply start_action_inj in Hj. subst j. exact Hjs.
    - intros Hi. left.
      assert (Hg : In (start_action i) (gen_starts
                 (emitted (start_loop ctl existing (count a) state m)))).
      { rewrite Hgs. apply in_map. exact Hi. }
      apply In_gen_starts in Hg. apply Hg. }
  assert (Hother : forall nodes : gmap string pyval,
            ~ In i started ->
            record_started started nodes !! node_name i = nodes !! node_name i).
  { intros nodes Hni. apply record_started_other.
    intros j Hj E. apply node_name_inj in E. subst j. exact (Hni Hj). }
  unfold records_running, persisted_nodes. rewrite Hfile.
  destruct (start_resolve_run a m) as (res & Hrun & Hprops).
  rewrite Hrun in Hres. injection Hres as ->.
  destruct (Hprops state ctl existing eq_refl)
    as (_ & Hempty & _ & _ & _ & Hloaded).
  split; [|split].
  - intros Hi. apply Hin in Hi. split.
    + apply In_xrange0. apply list_elem_of_In.
      eapply elem_of_sublist; [|exact Hsub]. apply list_elem_of_In, Hi.
    + destruct Hstate as [[-> _]|(nodes & Hn & ->)]; [destruct Hi|].
      rewrite lookup_insert_eq. eexists. split; [reflexivity|].
      apply record_started_lookup. left. exact Hi.
  - intros Hp Hni (nodes' & Hp' & Hl).
    rewrite Hin in Hni. specialize (Hempty Hp).
    destruct Hstate as [[_ ->]|(nodes & Hn & ->)].
    + rewrite Hempty in Hp'. injection Hp' as <-.
      rewrite lookup_empty in Hl. discriminate.
    + rewrite lookup_insert_eq in Hp'. injection Hp' as <-.
      rewrite Hempty in Hn. injection Hn as <-.
      rewrite Hother in Hl by exact Hni.
      rewrite lookup_empty in Hl. discriminate.
  - intros loaded nodes0 lifecycle Hf Hl Hlc Hn0 Hni.
    rewrite Hin in Hni.
    pose proof (Hloaded loaded lifecycle Hf Hl Hlc) as Hsame.
    rewrite Hn0 in Hsame.
    destruct Hstate as [[_ ->]|(nodes & Hn & ->)].
    + rewrite Hsame. exists nodes0. split; reflexivity.
    + rewrite lookup_insert_eq. eexists. split; [reflexivity|].
      rewrite Hsame in Hn. injection Hn as <-.
      apply Hother. exact Hni.
Qed.

End StartClaims.

Lemma start_refuses_second_manage_type_witness :
  do_cluster_start (Runs.start 3 (Some "daemon"))
    (Runs.with_document Documents.running_docker TestDriver.idle) =
  Run (Runs.with_document Documents.running_docker TestDriver.idle) []
    (inl (CliException (TwoManageTypes (VStr "docker")))).
Proof.
  apply (start_refuses_second_manage_type _ _ Documents.running_docker
           (VStr "docker") "daemon").
  - reflexivity.
  - vm_compute. reflexivity.
  - vm_compute. reflexivity.
  - reflexivity.
  - reflexivity.
Defined.

Lemma start_records_started_ordinals_witness :
  result (do_cluster_start (Runs.start 2 None)
            (Runs.fresh TestDriver.genesis_up)) = inr tt /\
  records_running
    (after (do_cluster_start (Runs.start 2 None)
              (Runs.fresh TestDriver.genesis_up))) 1 /\
  ~ records_running
    (after (do_cluster_start (Runs.start 2 None)
              (Runs.fresh TestDriver.genesis_up))) 0.
Proof.
  assert (Hok : result (do_cluster_start (Runs.start 2 None)
                          (Runs.fresh TestDriver.genesis_up)) = inr tt)
    by (vm_compute; reflexivity).
  split; [exact Hok|]. split.
  - apply (start_records_started_ordinals _ _ Hok 1%nat).
    vm_compute. repeat first [left; reflexivity | right].
  - apply (start_records_started_ordinals _ _ Hok 0%nat).
    + left. reflexivity.
    + vm_compute. intros Hin.
      repeat (destruct Hin as [Hin|Hin]; [discriminate Hin|]). exact Hin.
Defined.

Section StartAgain.
Context {W : Type} `{NodeDriver W}.

(** The start actions of a start are those of a sublist of the ordinals
    below the count, however the command ends. *)
Lemma do_cluster_start_gen_starts a (m : machine W) :
  exists started,
    sublist started (xrange0 (count a)) /\
    gen_starts (emitted (do_cluster_start a m)) = map start_action started.
Proof.
  destruct (do_cluster_start_cases a m) as [[e He]|Hc].
  { exists []. rewrite He. split; [apply sublist_nil_l|reflexivity]. }
  destruct Hc as (state & ctl & existing & _ & Hc).
  destruct (start_loop_facts ctl existing (count a) state m)
    as (started & Hsub & Hgs & _).
  exists started. split; [exact Hsub|].
  destruct Hc as [(e & He & _)|(state' & _ & _ & Hev & _)].
  - rewrite He. exact Hgs.
  - rewrite Hev, gen_starts_app, Hgs. apply app_nil_r.
Qed.

(** A successful start leaves a document whose management type names a
    controller. *)
Lemma start_ok_records_controller a (m : machine W) :
  result (do_cluster_start a m) = inr tt ->
  exists ctl, recorded_controller (after (do_cluster_start a m)) = Some ctl.
Proof.
  intros Hok.
  destruct (do_cluster_start_cases a m) as [[e He]|Hc].
  { rewrite He in Hok. discriminate. }
  destruct Hc as (state & ctl & existing & Hres & [(e & He & _)|Hc]).
  { rewrite He in Hok. discriminate. }
  destruct Hc as (state' & Hr1 & _ & _ & Hfile & _).
  destruct (start_resolve_run a m) as (res & Hrun & Hprops).
  rewrite Hrun in Hres. injection Hres as ->.
  destruct (Hprops state ctl existing eq_refl)
    as (_ & _ & (recorded & Hm & Hc) & _).
  destruct (start_loop_facts ctl existing (count a) state m)
    as (started & _ & _ & _ & _ & _ & Hstate).
  exists ctl. unfold recorded_controller. rewrite Hfile.
  assert (Hm' : state' !! "Manage" = Some recorded).
  { destruct (Hstate state' Hr1) as [[_ ->]|(nodes & _ & ->)]; [exact Hm|].
    rewrite lookup_insert_ne by discriminate. exact Hm. }
  rewrite Hm', Hc. reflexivity.
Qed.

(** C3. Start twice with the same arguments: when the first start
    succeeds and the controller of the recorded management type then
    lists every node below the count and sees it running, the second
    start issues no start action.  Node by node, a name that is listed
    and seen running costs one "Already running" line and nothing else. *)
Theorem start_twice_issues_no_start a (m : machine W) :
  result (do_cluster_start a m) = inr tt ->
  (forall ctl,
     recorded_controller (after (do_cluster_start a m)) = Some ctl ->
     forall i : nat, (Z.of_nat i < count a)%Z ->
       reports_running ctl (driver (after (do_cluster_start a m)))
         (node_name i)) ->
  gen_starts (emitted (do_cluster_start a (after (do_cluster_start a m)))) = [] /\
  forall ctl existing i rest state (m' : machine W),
    node_name i ∈ existing ->
    vnm_is_running ctl (node_name i) (driver m') = inr true ->
    start_nodes ctl existing (i :: rest) state m' =
    (emit (Print ("Already running: " ++ node_name i)) ;;;
     start_nodes ctl existing rest state) m'.
Proof.
  intros Hok Hup. split; [|intros; apply start_nodes_skip; assumption].
  destruct (start_ok_records_controller a m Hok) as (ctl & Hctl).
  set (m1 := after (do_cluster_start a m)) in *.
  specialize (Hup ctl Hctl).
  destruct (do_cluster_start_cases a m1) as [[e He]|Hc].
  { rewrite He. reflexivity. }
  destruct Hc as (state & ctl2 & existing & Hres & Hc).
  destruct (start_resolve_run a m1) as (res & Hrun & Hprops).
  rewrite Hrun in Hres. injection Hres as ->.
  destruct (Hprops state ctl2 existing eq_refl)
    as (_ & _ & _ & Hsame & Hnames & _).
  apply Hsame in Hctl. subst ctl2.
  assert (Hloop : start_loop ctl existing (count a) state m1 =
    Run m1 (map (fun i => Print ("Already running: " ++ node_name i))
              (xrange0 (count a))) (inr state)).
  { rewrite start_loop_run, (start_ok_fits a m Hok).
    apply start_nodes_all_running. intros i Hi. apply In_xrange0 in Hi.
    destruct (Hup i Hi) as (names & Hn & Hin & Hrun').
    rewrite Hnames in Hn. injection Hn as <-. split; assumption. }
  rewrite Hloop in Hc. cbn [emitted after result] in Hc.
  destruct Hc as [(e & He & _)|(state' & _ & _ & Hev & _)].
  - rewrite He. apply gen_starts_already_running.
  - rewrite Hev, gen_starts_app, gen_starts_already_running. reflexivity.
Qed.

(** C4. Every start action of a start is the one of an ordinal below the
    count, on ports 8800 and 5500, with [genesis] true exactly for
    ordinal 0: it carries [genesis = true] if and only if it names
    validator-000, and at most one start action of the command does.
    When the loop is reached with a count of one or more that [xrange]
    accepts and validator-000 is not listed, or is seen stopped, that
    one action is issued. *)
Theorem start_genesis_is_ordinal_zero a (m : machine W) :
  (forall name http gossip genesis,
     In (GenStart name http gossip genesis) (emitted (do_cluster_start a m)) ->
     (exists i : nat,
        (Z.of_nat i < count a)%Z /\
        GenStart name http gossip genesis = start_action i /\
        genesis = Nat.eqb i 0) /\
     (genesis = true <-> name = node_name 0)) /\
  (length (List.filter is_genesis_start (emitted (do_cluster_start a m))) <= 1)%nat /\
  (forall state ctl existing,
     result (start_resolve a m) = inr (state, ctl, existing) ->
     (1 <= count a <= sys_maxint)%Z ->
     node_name 0 ∉ existing \/
     vnm_is_running ctl (node_name 0) (driver m) = inr false ->
     In (GenStart (node_name 0) 8800 5500 true) (emitted (do_cluster_start a m))).
Proof.
  destruct (do_cluster_start_gen_starts a m) as (started & Hsub & Hgs).
  repeat apply conj.
  - intros name http gossip genesis Hin.
    assert (Hg : In (GenStart name http gossip genesis) (map start_action started)).
    { rewrite <- Hgs. apply In_gen_starts. split; [exact Hin|reflexivity]. }
    apply in_map_iff in Hg. destruct Hg as (i & Hi & His).
    assert (Hlt : (Z.of_nat i < count a)%Z).
    { apply In_xrange0, list_elem_of_In.
      eapply elem_of_sublist; [|exact Hsub]. apply list_elem_of_In, His. }
    unfold start_action in Hi. injection Hi as <- <- <- <-.
    split.
    + exists i. repeat apply conj; [exact Hlt|reflexivity|reflexivity].
    + split.
      * intros E. apply Nat.eqb_eq in E. subst i. reflexivity.
      * intros E. apply node_name_inj in E. subst i. reflexivity.
  - rewrite genesis_starts_of_gen_starts, Hgs.
    apply genesis_starts_at_most_one.
    apply (sublist_NoDup _ (xrange0 (count a))); [apply NoDup_seq|exact Hsub].
  - intros state ctl existing Hres Hcount Hdown.
    assert (Hx : xrange0 (count a) = 0%nat :: seq 1 (Z.to_nat (count a) - 1)).
    { unfold xrange0. destruct (Z.to_nat (count a)) as [|n] eqn:En; [lia|].
      cbn [seq]. f_equal. f_equal. lia. }
    pose proof (start_nodes_first ctl existing 0%nat
                  (seq 1 (Z.to_nat (count a) - 1)) state m Hdown) as Hfirst.
    rewrite <- Hx in Hfirst. change (start_action 0) with
      (GenStart (node_name 0) 8800 5500 true) in Hfirst.
    assert (Hl : start_loop ctl existing (count a) state m =
                 start_nodes ctl existing (xrange0 (count a)) state m).
    { rewrite start_loop_run.
      replace (fits_c_long (count a)) with true; [reflexivity|].
      symmetry. unfold fits_c_long. apply andb_true_intro.
      unfold sys_maxint in *. split; apply Z.leb_le; lia. }
    rewrite <- Hl in Hfirst.
    rewrite do_cluster_start_run, Hres. cbv zeta.
    destruct (result (start_loop ctl existing (count a) state m));
      [exact Hfirst|].
    destruct (writable m); [|exact Hfirst].
    cbn [emitted]. apply in_app_iff. left. exact Hfirst.
Qed.

(** C5. A start that meets a stopped cluster (no state file, or a
    document whose [State] is ["Stopped"]) hands the loop an empty
    [Nodes] mapping; a successful start writes the document; and any
    document it writes is the one left on file, whose [Nodes] holds
    nothing but the records of ordinals below the count. *)
Theorem start_fresh_epoch a (m : machine W) :
  prior_stopped m ->
  (forall st ctl existing,
     result (start_resolve a m) = inr (st, ctl, existing) ->
     st !! "Nodes" = Some (VDict ∅)) /\
  (result (do_cluster_start a m) = inr tt ->
   exists doc, In (WriteState doc) (emitted (do_cluster_start a m))) /\
  (forall doc,
     In (WriteState doc) (emitted (do_cluster_start a m)) ->
     state_file (after (do_cluster_start a m)) = Document doc /\
     exists nodes,
       persisted_nodes (after (do_cluster_start a m)) = Some nodes /\
       forall name v, nodes !! name = Some v ->
         exists i : nat,
           (Z.of_nat i < count a)%Z /\
           name = node_name i /\ v = node_record i).
Proof.
  intros Hp.
  destruct (start_resolve_run a m) as (res & Hrun & Hprops).
  repeat apply conj.
  - intros st ctl existing Hr. rewrite Hrun in Hr. cbn [result] in Hr.
    destruct (Hprops st ctl existing Hr) as (_ & Hempty & _).
    apply Hempty, Hp.
  - intros Hok.
    destruct (do_cluster_start_cases a m) as [[e He]|Hc].
    { rewrite He in Hok. discriminate. }
    destruct Hc as (state & ctl & existing & _ & [(e & He & _)|Hc]).
    { rewrite He in Hok. discriminate. }
    destruct Hc as (state' & _ & _ & Hev & _).
    exists (VDict state'). rewrite Hev. apply in_app_iff. right. left.
    reflexivity.
  - intros doc Hin.
    destruct (do_cluster_start_cases a m) as [[e He]|Hc].
    { rewrite He in Hin. destruct Hin. }
    destruct Hc as (state & ctl & existing & Hres & Hc).
    destruct (start_loop_facts ctl existing (count a) state m)
      as (started & Hsub & _ & Hloop & _ & _ & Hstate).
    destruct Hc as [(e & He & _)|(state' & Hr1 & _ & Hev & Hfile & _)].
    { rewrite He in Hin. cbn [emitted] in Hin.
      exfalso. exact (loop_events_no_write _ _ Hloop Hin). }
    rewrite Hev in Hin. apply in_app_iff in Hin.
    destruct Hin as [Hin|[[= <-]|[[=]|[]]]].
    { exfalso. exact (loop_events_no_write _ _ Hloop Hin). }
    split; [exact Hfile|].
    rewrite Hrun in Hres. injection Hres as ->.
    destruct (Hprops state ctl existing eq_refl) as (_ & Hempty & _).
    specialize (Hempty Hp). unfold persisted_nodes. rewrite Hfile.
    destruct (Hstate state' Hr1) as [[_ ->]|(nodes & Hn & ->)].
    + rewrite Hempty. exists ∅. split; [reflexivity|].
      intros name v Hl. rewrite lookup_empty in Hl. discriminate.
    + rewrite lookup_insert_eq. eexists. split; [reflexivity|].
      rewrite Hempty in Hn. injection Hn as <-.
      intros name v Hl. apply record_started_keys in Hl.
      destruct Hl as [Hl|(i & Hi & -> & ->)].
      * rewrite lookup_empty in Hl. discriminate.
      * exists i. repeat apply conj; try reflexivity.
        apply In_xrange0, list_elem_of_In.
        eapply elem_of_sublist; [|exact Hsub]. apply list_elem_of_In, Hi.
Qed.

(** C10, as the code has it.  With a count of zero or less that
    [xrange] accepts (not below -2^63), once the steps before the loop
    have gone through and the state file can be written, the start
    issues no start action, writes the state it resolved and calls
    [update]: the document on file has [State] ["Running"], and an empty
    [Nodes] when the cluster was stopped before.  With a count below
    -2^63 the [xrange] of line 146 raises [OverflowError]: nothing is
    emitted and the machine is left as it was. *)
Theorem start_nonpositive_count a (m : machine W) state ctl existing :
  (count a <= 0)%Z ->
  result (start_resolve a m) = inr (state, ctl, existing) ->
  writable m = true ->
  ((- sys_maxint - 1 <= count a)%Z ->
   gen_starts (emitted (do_cluster_start a m)) = [] /\
   emitted (do_cluster_start a m) = [WriteState (VDict state); VnmUpdate] /\
   state_file (after (do_cluster_start a m)) = Document (VDict state) /\
   state !! "State" = Some (VStr "Running") /\
   (prior_stopped m -> state !! "Nodes" = Some (VDict ∅))) /\
  ((count a < - sys_maxint - 1)%Z ->
   do_cluster_start a m = Run m [] (inl OverflowError)).
Proof.
  intros Hcount Hres Hw.
  destruct (start_resolve_run a m) as (res & Hrun & Hprops).
  assert (Hres' := Hres). rewrite Hrun in Hres'. cbn [result] in Hres'.
  destruct (Hprops state ctl existing Hres') as (Hs & Hempty & _).
  rewrite do_cluster_start_run, Hres, Hw, start_loop_run.
  unfold fits_c_long, sys_maxint in *. split; intros Hrange.
  - replace (- (2 ^ 63 - 1) - 1 <=? count a)%Z with true
      by (symmetry; apply Z.leb_le; lia).
    replace (count a <=? 2 ^ 63 - 1)%Z with true
      by (symmetry; apply Z.leb_le; lia).
    cbn [andb]. unfold xrange0.
    replace (Z.to_nat (count a)) with 0%nat by lia.
    cbn [seq start_nodes ret result emitted after app].
    repeat apply conj; try reflexivity; assumption.
  - replace (- (2 ^ 63 - 1) - 1 <=? count a)%Z with false
      by (symmetry; apply Z.leb_gt; lia).
    reflexivity.
Qed.

End StartAgain.

Lemma start_twice_issues_no_start_witness :
  result (do_cluster_start (Runs.start 2 None) (Runs.fresh TestDriver.idle))
  = inr tt /\
  gen_starts
    (emitted
       (do_cluster_start (Runs.start 2 None)
          (after (do_cluster_start (Runs.start 2 None)
                    (Runs.fresh TestDriver.idle))))) = [].
Proof.
  assert (Hok : result (do_cluster_start (Runs.start 2 None)
                          (Runs.fresh TestDriver.idle)) = inr tt)
    by (vm_compute; reflexivity).
  split; [exact Hok|].
  apply (start_twice_issues_no_start _ _ Hok).
  intros ctl _ i Hi. exists ["validator-001"; "validator-000"].
  destruct i as [|[|i]]; [| |cbn in Hi; lia].
  - repeat apply conj; [vm_compute; reflexivity| |vm_compute; reflexivity].
    apply list_elem_of_In. vm_compute. tauto.
  - repeat apply conj; [vm_compute; reflexivity| |vm_compute; reflexivity].
    apply list_elem_of_In. vm_compute. tauto.
Defined.

Lemma start_genesis_is_ordinal_zero_witness :
  In (GenStart "validator-000" 8800 5500 true)
     (emitted (do_cluster_start (Runs.start 2 None)
                 (Runs.fresh TestDriver.idle))) /\
  (true = true <-> "validator-000" = node_name 0).
Proof.
  assert (Hin : In (GenStart "validator-000" 8800 5500 true)
                  (emitted (do_cluster_start (Runs.start 2 None)
                              (Runs.fresh TestDriver.idle)))).
  { vm_compute. repeat first [left; reflexivity | right]. }
  split; [exact Hin|].
  apply (proj1 (start_genesis_is_ordinal_zero (Runs.start 2 None)
                  (Runs.fresh TestDriver.idle)) _ _ _ _ Hin).
Defined.

Lemma stopped_stale_is_stopped :
  prior_stopped (Runs.with_document Documents.stopped_stale TestDriver.idle).
Proof.
  right. exists Documents.stopped_stale.
  split; [reflexivity|vm_compute; reflexivity].
Qed.

Lemma start_fresh_epoch_witness :
  prior_stopped (Runs.with_document Documents.stopped_stale TestDriver.idle) /\
  persisted_nodes
    (after (do_cluster_start (Runs.start 1 None)
              (Runs.with_document Documents.stopped_stale TestDriver.idle)))
  = Some {[node_name 0 := node_record 0]} /\
  forall doc,
    In (WriteState doc)
       (emitted (do_cluster_start (Runs.start 1 None)
                   (Runs.with_document Documents.stopped_stale TestDriver.idle))) ->
    state_file
      (after (do_cluster_start (Runs.start 1 None)
                (Runs.with_document Documents.stopped_stale TestDriver.idle)))
    = Document doc.
Proof.
  split; [exact stopped_stale_is_stopped|].
  split; [vm_compute; reflexivity|].
  intros doc Hin.
  apply (start_fresh_epoch (Runs.start 1 None) _ stopped_stale_is_stopped).
  exact Hin.
Defined.

Lemma start_nonpositive_count_witness :
  emitted (do_cluster_start (Runs.start 0 None)
             (Runs.with_document Documents.stopped_stale TestDriver.idle))
  = [WriteState
       (VDict (<["State" := VStr "Running"]>
                 (<["Nodes" := VDict ∅]> Documents.stopped_stale)));
     VnmUpdate].
Proof.
  apply (start_nonpositive_count (Runs.start 0 None)
           (Runs.with_document Documents.stopped_stale TestDriver.idle)
           _ DockerNodeController []).
  - cbn. lia.
  - vm_compute. reflexivity.
  - reflexivity.
  - cbn. unfold sys_maxint. lia.
Defined.

(** C10: the statement fails below the range of a C long.  With no
    state file and a count of -2^63 - 1 the steps before the loop go
    through, [xrange] raises and nothing is written. *)
Lemma start_count_below_c_long :
  ~ nonpositive_start_persists (Runs.start (-9223372036854775809) None)
      (Runs.fresh TestDriver.idle).
Proof.
  intros Hp.
  destruct (Hp ltac:(cbn; lia)
              (<["State" := VStr "Running"]>
                 (<["Manage" := VStr "docker"]>
                    (<["Nodes" := VDict ∅]> {["State" := VStr "Stopped"]})))
              DockerNodeController []) as (He & _).
  - vm_compute. reflexivity.
  - reflexivity.
  - vm_compute in He. discriminate He.
Qed.

Section StopClaims.
Context {W : Type} `{NodeDriver W}.

(** Without a [Manage] key the subscript [state['Manage']] raises. *)
Lemma stop_missing_manage a (m : machine W) (state : gmap string pyval) :
  state_file m = Document (VDict state) ->
  state !! "Manage" = None ->
  do_cluster_stop a m = Run m [] (inl (KeyError "Manage")).
Proof.
  intros EF EM. rewrite do_cluster_stop_run, EF. cbn [py_getitem].
  rewrite EM. reflexivity.
Qed.

(** C6, as the code has it.  [do_cluster_stop] never writes the state
    document: whatever the arguments and however it ends, the state file
    is the one it found, so [State] is not reset.  When the stop
    succeeds, or as soon as it has called [update], the state file held
    a document whose [Manage] names a controller, the targets are the
    names given or else the ones this controller lists, and what the
    stop did is exactly: hand each target, in order, to the generator,
    then call [update]. *)
Theorem stop_leaves_state_file a (m : machine W) :
  state_file (after (do_cluster_stop a m)) = state_file m /\
  (forall doc, ~ In (WriteState doc) (emitted (do_cluster_stop a m))) /\
  (result (do_cluster_stop a m) = inr tt \/
   In VnmUpdate (emitted (do_cluster_stop a m)) ->
   exists doc recorded ctl names,
     state_file m = Document doc /\
     py_getitem doc "Manage" = inr recorded /\
     stop_controller recorded = inr ctl /\
     resolved_names a ctl (driver m) = inr names /\
     emitted (do_cluster_stop a m) = (stop_events names ++ [VnmUpdate])%list /\
     stop_targets (emitted (do_cluster_stop a m)) = names).
Proof.
  rewrite do_cluster_stop_run.
  destruct (state_file m) as [| |doc] eqn:EF;
    try (repeat apply conj;
         [exact EF|intros doc' []|intros [Hd|[]]; discriminate Hd]).
  destruct (py_getitem doc "Manage") as [e|recorded] eqn:EM;
    [repeat apply conj;
     [exact EF|intros doc' []|intros [Hd|[]]; discriminate Hd]|].
  destruct (stop_controller recorded) as [e|ctl] eqn:EC;
    [repeat apply conj;
     [exact EF|intros doc' []|intros [Hd|[]]; discriminate Hd]|].
  destruct (resolved_names a ctl (driver m)) as [e|names] eqn:EN;
    [repeat apply conj;
     [exact EF|intros doc' []|intros [Hd|[]]; discriminate Hd]|].
  destruct (stop_nodes_run names m) as (Hf & _ & handed & _ & Hev & Hall).
  cbv zeta.
  destruct (result (stop_nodes names m)) as [e|[]] eqn:E1;
    cbn [after emitted result state_file with_driver].
  - repeat apply conj; [congruence| |].
    + intros doc' Hin. rewrite Hev in Hin. apply In_stop_events in Hin.
      destruct Hin as (name & _ & [[=]|[=]]).
    + intros [Hd|Hin]; [discriminate Hd|].
      rewrite Hev in Hin. apply In_stop_events in Hin.
      destruct Hin as (name & _ & [[=]|[=]]).
  - repeat apply conj; [congruence| |].
    + intros doc' Hin. rewrite Hev in Hin. apply in_app_iff in Hin.
      destruct Hin as [Hin|[[=]|[]]]. apply In_stop_events in Hin.
      destruct Hin as (name & _ & [[=]|[=]]).
    + intros _. exists doc, recorded, ctl, names.
      rewrite Hev, (Hall eq_refl), stop_targets_app, stop_targets_stop_events.
      cbn [stop_targets]. rewrite app_nil_r.
      repeat apply conj; first [assumption|reflexivity].
Qed.

(** The status loop in full: it prints, in order, the line of every name
    whose [status] query returns, up to the first name whose query
    raises; it succeeds when there is no such name and otherwise ends
    with that exception. *)
Lemma status_nodes_full ctl names : forall m : machine W,
  exists sts,
    Forall2 (fun name st => vnm_status ctl name (driver m) = inr st)
            (take (length sts) names) sts /\
    emitted (status_nodes ctl names m) = zip_with status_line names sts /\
    ((length sts = length names /\
      result (status_nodes ctl names m) = inr tt) \/
     (exists name e,
        names !! length sts = Some name /\
        vnm_status ctl name (driver m) = inl e /\
        result (status_nodes ctl names m) = inl e)).
Proof.
  intros m. induction names as [|name rest IH].
  - exists []. repeat apply conj; [constructor|reflexivity|].
    left. split; reflexivity.
  - rewrite status_nodes_cons.
    destruct (vnm_status ctl name (driver m)) as [e|st] eqn:Est.
    + exists []. repeat apply conj; [constructor|reflexivity|].
      right. exists name, e. repeat apply conj; [reflexivity|exact Est|reflexivity].
    + destruct IH as (sts & Hall & Hev & Hcase).
      exists (st :: sts). cbv zeta. cbn [emitted result length take zip_with].
      repeat apply conj.
      * constructor; assumption.
      * rewrite Hev. reflexivity.
      * destruct Hcase as [[Hlen Hres]|(name' & e & Hlk & He & Hres)].
        -- left. split; [congruence|exact Hres].
        -- right. exists name', e. repeat apply conj; assumption.
Qed.

(** C8. With no names given, [stop] hands to the generator, and [status]
    prints, the names the controller lists; with names given, those
    names.  The state document plays no part beyond naming the
    controller of [stop].  For [stop], once the state document names a
    controller: the stop targets are a prefix of these names, and all of
    them when the generator's [stop] returns for each, and so when the
    command succeeds.  For [status]: the lines printed are, in order,
    those of these names with the state the controller's [status] gives
    for each, up to the first name whose query raises; with no such name
    every name has its line and the command succeeds. *)
Theorem stop_status_targets a b (m ms : machine W) doc recorded ctl sctl
    listed slisted :
  (state_file m = Document doc ->
   py_getitem doc "Manage" = inr recorded ->
   stop_controller recorded = inr ctl ->
   (node_names a = [] -> vnm_get_node_names ctl (driver m) = inr listed) ->
   stop_targets (emitted (do_cluster_stop a m))
     `prefix_of` match node_names a with [] => listed | names => names end /\
   (result (do_cluster_stop a m) = inr tt ->
    stop_targets (emitted (do_cluster_stop a m)) =
    match node_names a with [] => listed | names => names end) /\
   (result (stop_nodes
              match node_names a with [] => listed | names => names end m) =
    inr tt ->
    stop_targets (emitted (do_cluster_stop a m)) =
    match node_names a with [] => listed | names => names end)) /\
  (status_controller (manage b) = inr sctl ->
   (node_names b = [] -> vnm_get_node_names sctl (driver ms) = inr slisted) ->
   exists sts,
     Forall2 (fun name st => vnm_status sctl name (driver ms) = inr st)
       (take (length sts)
          match node_names b with [] => slisted | names => names end) sts /\
     emitted (do_cluster_status b ms) =
     zip_with status_line
       match node_names b with [] => slisted | names => names end sts /\
     ((length sts =
       length match node_names b with [] => slisted | names => names end /\
       result (do_cluster_status b ms) = inr tt) \/
      (exists name e,
         match node_names b with [] => slisted | names => names end
           !! length sts = Some name /\
         vnm_status sctl name (driver ms) = inl e /\
         result (do_cluster_status b ms) = inl e))).
Proof.
  split.
  - intros EF EM EC Hlist.
    rewrite do_cluster_stop_run, EF, EM, EC.
    assert (Hn : resolved_names a ctl (driver m) =
                 inr match node_names a with [] => listed | names => names end).
    { unfold resolved_names. destruct (node_names a) as [|n ns].
      - cbn. apply Hlist. reflexivity.
      - reflexivity. }
    rewrite Hn. cbv zeta.
    set (names := match node_names a with [] => listed | names => names end).
    destruct (stop_nodes_run names m) as (_ & _ & handed & Hp & Hev & Hall).
    destruct (result (stop_nodes names m)) as [e|[]] eqn:E1;
      cbn [after emitted result].
    + rewrite Hev, stop_targets_stop_events.
      repeat apply conj; [exact Hp|discriminate|discriminate].
    + rewrite stop_targets_app, Hev, stop_targets_stop_events, (Hall eq_refl).
      cbn [stop_targets]. rewrite app_nil_r.
      repeat apply conj; reflexivity.
  - intros ESC Hslist.
    rewrite do_cluster_status_run, ESC.
    assert (Hn : resolved_names b sctl (driver ms) =
                 inr match node_names b with [] => slisted | names => names end).
    { unfold resolved_names. destruct (node_names b) as [|n ns].
      - cbn. apply Hslist. reflexivity.
      - reflexivity. }
    rewrite Hn.
    apply status_nodes_full.
Qed.

(** C9, as the code has it.  The loops of [stop] and [status] have no
    handler.  Whether the names were given or come from the controller's
    listing: when the generator's [stop] raises at a name, having
    returned for the names before it, these names and this one have been
    handed over, nothing after it is, [update] is not called and the
    exception leaves the command; when [status] raises at a name, the
    lines of the names before it are printed, nothing else, and the
    exception leaves the command. *)
Theorem stop_status_abort_at_first_failure a b (m ms : machine W) doc recorded
    ctl sctl pre name post e spre sname spost sts se :
  (state_file m = Document doc ->
   py_getitem doc "Manage" = inr recorded ->
   stop_controller recorded = inr ctl ->
   resolved_names a ctl (driver m) = inr (pre ++ name :: post)%list ->
   result (stop_nodes pre m) = inr tt ->
   snd (generator_stop name (driver (after (stop_nodes pre m)))) = Some e ->
   emitted (do_cluster_stop a m) = stop_events (pre ++ [name]) /\
   result (do_cluster_stop a m) = inl e /\
   stop_targets (emitted (do_cluster_stop a m)) = (pre ++ [name])%list /\
   ~ In VnmUpdate (emitted (do_cluster_stop a m))) /\
  (status_controller (manage b) = inr sctl ->
   resolved_names b sctl (driver ms) = inr (spre ++ sname :: spost)%list ->
   Forall2 (fun n st => vnm_status sctl n (driver ms) = inr st) spre sts ->
   vnm_status sctl sname (driver ms) = inl se ->
   do_cluster_status b ms = Run ms (zip_with status_line spre sts) (inl se)).
Proof.
  split.
  - intros EF EM EC Hn Hpre He.
    rewrite do_cluster_stop_run, EF, EM, EC, Hn. cbv zeta.
    rewrite (stop_nodes_raise pre name post e m Hpre He).
    cbn [result emitted]. rewrite stop_targets_stop_events.
    repeat apply conj; try reflexivity.
    intros Hin. apply In_stop_events in Hin.
    destruct Hin as (n & _ & [[=]|[=]]).
  - intros ESC Hn Hspre Hse.
    rewrite do_cluster_status_run, ESC, Hn.
    apply status_nodes_raise; assumption.
Qed.

End StopClaims.

(** C6: the statement fails.  Stopping the one known validator of a
    running docker cluster succeeds and nothing is written. *)
Lemma stop_does_not_persist :
  ~ stop_persists (Runs.stop [])
      (Runs.with_document Documents.running_docker TestDriver.genesis_up).
Proof.
  intros Hp. destruct (Hp eq_refl) as (doc & Hin).
  vm_compute in Hin.
  repeat (destruct Hin as [Hin|Hin]; [discriminate Hin|]). exact Hin.
Qed.

Lemma stop_leaves_state_file_witness :
  state_file
    (after (do_cluster_stop (Runs.stop [])
              (Runs.with_document Documents.running_docker
                 TestDriver.genesis_up))) =
  Document (VDict Documents.running_docker) /\
  emitted (do_cluster_stop (Runs.stop [])
             (Runs.with_document Documents.running_docker
                TestDriver.genesis_up)) =
  (stop_events ["validator-000"] ++ [VnmUpdate])%list.
Proof.
  split.
  - apply (stop_leaves_state_file (Runs.stop [])
             (Runs.with_document Documents.running_docker
                TestDriver.genesis_up)).
  - assert (Hok : result (do_cluster_stop (Runs.stop [])
                            (Runs.with_document Documents.running_docker
                               TestDriver.genesis_up)) = inr tt)
      by (vm_compute; reflexivity).
    destruct (proj2 (proj2
      (stop_leaves_state_file (Runs.stop [])
         (Runs.with_document Documents.running_docker TestDriver.genesis_up)))
      (or_introl Hok))
      as (doc & recorded & ctl & names & _ & _ & _ & EN & Hev & _).
    vm_compute in EN. injection EN as <-. exact Hev.
Defined.

(** C7: on a document without [Manage], [do_cluster_stop] raises
    [KeyError] where [do_cluster_start] settles on docker. *)
Theorem stop_without_manage_raises :
  do_cluster_stop (Runs.stop [])
    (Runs.with_document Documents.without_manage TestDriver.genesis_up) =
  Run (Runs.with_document Documents.without_manage TestDriver.genesis_up) []
    (inl (KeyError "Manage")) /\
  result (start_resolve (Runs.start 1 None)
            (Runs.with_document Documents.without_manage TestDriver.genesis_up)) =
  inr (<["State" := VStr "Running"]>
         (<["Manage" := VStr "docker"]> Documents.without_manage),
       DockerNodeController, ["validator-000"]).
Proof.
  split.
  - apply (stop_missing_manage _ _ Documents.without_manage).
    + reflexivity.
    + vm_compute. reflexivity.
  - vm_compute. reflexivity.
Qed.

Lemma stop_status_targets_witness :
  stop_targets
    (emitted (do_cluster_stop (Runs.stop [])
                (Runs.with_document Documents.running_docker
                   TestDriver.second_down))) =
  ["validator-000"; "validator-001"] /\
  persisted_nodes
    (Runs.with_document Documents.running_docker TestDriver.second_down) =
  Some ∅ /\
  emitted (do_cluster_status (Runs.status [] (Some "daemon"))
             (Runs.fresh TestDriver.second_down)) =
  [status_line "validator-000" "RUNNING";
   status_line "validator-001" "STOPPED"] /\
  result (do_cluster_status (Runs.status [] (Some "daemon"))
            (Runs.fresh TestDriver.second_down)) = inr tt.
Proof.
  pose proof
    (stop_status_targets (Runs.stop []) (Runs.status [] (Some "daemon"))
       (Runs.with_document Documents.running_docker TestDriver.second_down)
       (Runs.fresh TestDriver.second_down)
       (VDict Documents.running_docker) (VStr "docker")
       DockerNodeController DaemonNodeController
       ["validator-000"; "validator-001"] ["validator-000"; "validator-001"])
    as [Hstop Hstatus].
  split; [|split].
  - refine (proj1 (proj2
      (Hstop eq_refl _ eq_refl (fun _ => eq_refl))) _).
    + vm_compute. reflexivity.
    + vm_compute. reflexivity.
  - vm_compute. reflexivity.
  - destruct (Hstatus eq_refl (fun _ => eq_refl))
      as (sts & Hall & Hev & Hcase).
    destruct Hcase as [[Hlen Hres]|(name & e & Hlk & Hst & Hres)].
    + destruct sts as [|s0 [|s1 [|s2 sts]]]; try discriminate Hlen.
      inversion Hall as [|? ? ? ? Hst0 Hall'].
      inversion Hall' as [|? ? ? ? Hst1 _].
      vm_compute in Hst0. vm_compute in Hst1.
      injection Hst0 as <-. injection Hst1 as <-.
      split; [exact Hev|exact Hres].
    + destruct sts as [|s0 [|s1 sts]].
      * vm_compute in Hlk. injection Hlk as <-.
        vm_compute in Hst. discriminate Hst.
      * vm_compute in Hlk. injection Hlk as <-.
        vm_compute in Hst. discriminate Hst.
      * vm_compute in Hlk. discriminate Hlk.
Defined.

(** C9: the statement fails.  With the middle of three validators out of
    reach, the third gets neither its stop action nor its status line. *)
Lemma stop_fan_out_aborts :
  ~ stop_reaches_every_name (Runs.stop Runs.three_names)
      (Runs.with_document Documents.running_docker TestDriver.middle_faulty) /\
  ~ status_reaches_every_name (Runs.status Runs.three_names None)
      (Runs.with_document Documents.running_docker TestDriver.middle_faulty).
Proof.
  split; intros Hall.
  - assert (Hin := Hall "validator-002"
                     (or_intror (or_intror (or_introl eq_refl)))).
    vm_compute in Hin.
    repeat (destruct Hin as [Hin|Hin]; [discriminate Hin|]). exact Hin.
  - assert (Hin := Hall DockerNodeController "validator-002" "RUNNING" eq_refl
                     (or_intror (or_intror (or_introl eq_refl))) eq_refl).
    vm_compute in Hin.
    repeat (destruct Hin as [Hin|Hin]; [discriminate Hin|]). exact Hin.
Qed.

Lemma stop_status_abort_at_first_failure_witness :
  (emitted (do_cluster_stop (Runs.stop [])
              (Runs.with_document Documents.running_docker
                 TestDriver.middle_faulty)) =
   stop_events ["validator-000"; "validator-001"] /\
   result (do_cluster_stop (Runs.stop [])
             (Runs.with_document Documents.running_docker
                TestDriver.middle_faulty)) =
   inl (ManagementError "cannot stop: validator-001") /\
   stop_targets
     (emitted (do_cluster_stop (Runs.stop [])
                 (Runs.with_document Documents.running_docker
                    TestDriver.middle_faulty))) =
   ["validator-000"; "validator-001"] /\
   ~ In VnmUpdate
       (emitted (do_cluster_stop (Runs.stop [])
                   (Runs.with_document Documents.running_docker
                      TestDriver.middle_faulty)))) /\
  do_cluster_status (Runs.status [] None)
    (Runs.fresh TestDriver.middle_faulty) =
  Run (Runs.fresh TestDriver.middle_faulty)
    [status_line "validator-000" "RUNNING"]
    (inl (ManagementError "no such node: validator-001")).
Proof.
  pose proof
    (stop_status_abort_at_first_failure
       (Runs.stop []) (Runs.status [] None)
       (Runs.with_document Documents.running_docker TestDriver.middle_faulty)
       (Runs.fresh TestDriver.middle_faulty)
       (VDict Documents.running_docker) (VStr "docker")
       DockerNodeController DockerNodeController
       ["validator-000"] "validator-001" ["validator-002"]
       (ManagementError "cannot stop: validator-001")
       ["validator-000"] "validator-001" ["validator-002"]
       ["RUNNING"] (ManagementError "no such node: validator-001"))
    as [Hstop Hstatus].
  split.
  - apply Hstop.
    + reflexivity.
    + vm_compute. reflexivity.
    + reflexivity.
    + vm_compute. reflexivity.
    + vm_compute. reflexivity.
    + vm_compute. reflexivity.
  - apply Hstatus.
    + reflexivity.
    + vm_compute. reflexivity.
    + constructor; [vm_compute; reflexivity|constructor].
    + vm_compute. reflexivity.
Defined.

(** * Further properties of the commands *)

(** ** Node names *)

Lemma string_length_app (s1 s2 : string) :
  String.length (s1 ++ s2) = (String.length s1 + String.length s2)%nat.
Proof.
  induction s1 as [|c s1 IH]; [reflexivity|].
  change (String c s1 ++ s2) with (String c (s1 ++ s2)).
  cbn [String.length]. rewrite IH. reflexivity.
Qed.

Lemma zeros_length (k : nat) : String.length (zeros k) = k.
Proof. induction k as [|k IH]; [reflexivity|]. cbn. rewrite IH. reflexivity. Qed.

Lemma pad3_length (s : string) :
  String.length (pad3 s) = Nat.max 3 (String.length s).
Proof. unfold pad3. rewrite string_length_app, zeros_length. lia. Qed.

Lemma node_name_length (i : nat) :
  String.length (node_name i) = (10 + Nat.max 3 (String.length (py_str_nat i)))%nat.
Proof.
  unfold node_name. rewrite string_length_app, pad3_length. reflexivity.
Qed.

Lemma node_name_width_below_1000 :
  forallb (fun i => Nat.eqb (String.length (node_name i)) 13) (seq 0 1000) = true.
Proof. vm_compute. reflexivity. Qed.

(** X1. Two ordinals have the same node name only if they are the same
    ordinal: the names the start loop derives never collide, whatever the
    width of the number. *)
Theorem node_names_distinct (i j : nat) : node_name i = node_name j <-> i = j.
Proof.
  split; [apply node_name_inj|]. intros ->. reflexivity.
Qed.

(** X2. A node name is ["validator-"] followed by the ordinal in
    decimal, padded with zeros to three digits and never cut: it parses
    back to the ordinal, it is 13 characters long for every ordinal below
    1000 and at least that long for any other, and a rendering of three
    digits or more is kept as it is. *)
Theorem node_name_shape (i : nat) :
  String.prefix "validator-" (node_name i) = true /\
  digits_value (pad3 (py_str_nat i)) = Some i /\
  (13 <= String.length (node_name i))%nat /\
  ((i < 1000)%nat -> String.length (node_name i) = 13%nat) /\
  ((3 <= String.length (py_str_nat i))%nat ->
   node_name i = "validator-" ++ py_str_nat i).
Proof.
  repeat apply conj.
  - apply prefix_correct. unfold node_name.
    change ("validator-" ++ pad3 (py_str_nat i)) with
      (String "v" (String "a" (String "l" (String "i" (String "d"
        (String "a" (String "t" (String "o" (String "r" (String "-"
          (pad3 (py_str_nat i)))))))))))).
    cbn [String.length substring]. destruct (pad3 (py_str_nat i)); reflexivity.
  - unfold pad3. rewrite digits_value_zeros. apply digits_value_str.
  - rewrite node_name_length. lia.
  - intros Hi. pose proof node_name_width_below_1000 as Hall.
    rewrite forallb_forall in Hall.
    apply Nat.eqb_eq. apply Hall. apply in_seq. lia.
  - intros Hlen. unfold node_name, pad3.
    replace (3 - String.length (py_str_nat i))%nat with 0%nat by lia.
    reflexivity.
Qed.

Lemma node_name_shape_witness :
  String.length (node_name 7) = 13%nat /\
  node_name 1234 = "validator-" ++ py_str_nat 1234.
Proof.
  split.
  - apply (node_name_shape 7). lia.
  - apply (node_name_shape 1234). vm_compute. lia.
Defined.

(** ** What the commands leave alone *)

Lemma is_print_status_lines (names sts : list string) :
  forallb is_print (zip_with status_line names sts) = true.
Proof.
  revert sts. induction names as [|n names IH]; intros [|st sts];
    try reflexivity.
  cbn. apply IH.
Qed.

Section Quiet.
Context {W : Type} `{NodeDriver W}.

Lemma start_resolve_loaded a (m : machine W) (state : gmap string pyval) :
  result (load_or_stopped m) = inr (VDict state) ->
  start_resolve a m = start_settle a state m.
Proof.
  intros Hl. unfold start_resolve. apply bind_pure_run with (x := VDict state).
  - rewrite load_or_stopped_run in *. cbn [result] in Hl. rewrite Hl.
    reflexivity.
  - reflexivity.
Qed.

Lemma start_resolve_document a (m : machine W) (state : gmap string pyval) :
  state_file m = Document (VDict state) ->
  start_resolve a m = start_settle a state m.
Proof.
  intros EF. apply start_resolve_loaded.
  rewrite load_or_stopped_run, EF. reflexivity.
Qed.

Lemma start_resolve_missing a (m : machine W) :
  state_file m = Missing ->
  start_resolve a m = start_settle a {["State" := VStr "Stopped"]} m.
Proof.
  intros EF. apply start_resolve_loaded.
  rewrite load_or_stopped_run, EF. reflexivity.
Qed.

(** [do_cluster_stop] leaves the state file alone and writes nothing. *)
Lemma do_cluster_stop_quiet a (m : machine W) :
  state_file (after (do_cluster_stop a m)) = state_file m /\
  forall doc, ~ In (WriteState doc) (emitted (do_cluster_stop a m)).
Proof.
  rewrite do_cluster_stop_run.
  destruct (state_file m) as [| |doc] eqn:EF;
    try (split; [exact EF|intros doc' []]).
  destruct (py_getitem doc "Manage") as [e|recorded];
    [split; [exact EF|intros doc' []]|].
  destruct (stop_controller recorded) as [e|ctl];
    [split; [exact EF|intros doc' []]|].
  destruct (resolved_names a ctl (driver m)) as [e|names];
    [split; [exact EF|intros doc' []]|].
  destruct (stop_nodes_run names m) as (Hf & _ & handed & _ & Hev & _).
  cbv zeta.
  assert (Hnw : forall doc', ~ In (WriteState doc') (emitted (stop_nodes names m))).
  { intros doc' Hin. rewrite Hev in Hin. apply In_stop_events in Hin.
    destruct Hin as (name & _ & [[=]|[=]]). }
  destruct (result (stop_nodes names m)) as [e|[]];
    cbn [after emitted result state_file with_driver].
  - split; [congruence|exact Hnw].
  - split; [congruence|].
    intros doc' Hin. apply in_app_iff in Hin.
    destruct Hin as [Hin|[[=]|[]]]. exact (Hnw doc' Hin).
Qed.

(** [do_cluster_status] leaves the whole machine alone and only prints. *)
Lemma do_cluster_status_quiet a (m : machine W) :
  after (do_cluster_status a m) = m /\
  forallb is_print (emitted (do_cluster_status a m)) = true.
Proof.
  rewrite do_cluster_status_run.
  destruct (status_controller (manage a)) as [e|ctl];
    [split; reflexivity|].
  destruct (resolved_names a ctl (driver m)) as [e|names];
    [split; reflexivity|].
  destruct (status_nodes_run ctl names m) as (Ha & sts & _ & _ & Hev & _).
  split; [exact Ha|]. rewrite Hev. apply is_print_status_lines.
Qed.

(** X3. Of the three commands [do_cluster] dispatches to, only [start]
    writes the state document: if a run of [do_cluster] writes it, or
    leaves a state file other than the one it found, the command was
    ["start"].  [stop], [status] and an unknown command never do. *)
Theorem only_start_writes a (m : machine W) :
  (exists doc, In (WriteState doc) (emitted (do_cluster a m))) \/
  state_file (after (do_cluster a m)) <> state_file m ->
  cluster_command a = "start".
Proof.
  unfold do_cluster.
  destruct (String.eqb (cluster_command a) "start") eqn:Es.
  { intros _. apply String.eqb_eq. exact Es. }
  intros Hw. exfalso.
  destruct (String.eqb (cluster_command a) "status").
  { destruct (do_cluster_status_quiet a m) as (Ha & Hp).
    destruct Hw as [(doc & Hin)|Hne].
    - rewrite forallb_forall in Hp. apply Hp in Hin. discriminate.
    - apply Hne. rewrite Ha. reflexivity. }
  destruct (String.eqb (cluster_command a) "stop").
  { destruct (do_cluster_stop_quiet a m) as (Hf & Hnw).
    destruct Hw as [(doc & Hin)|Hne].
    - exact (Hnw doc Hin).
    - exact (Hne Hf). }
  destruct Hw as [(doc & [])|Hne]. apply Hne. reflexivity.
Qed.

End Quiet.

Lemma only_start_writes_witness :
  cluster_command (Runs.start 1 None) = "start".
Proof.
  apply (only_start_writes (Runs.start 1 None) (Runs.fresh TestDriver.idle)).
  right. vm_compute. discriminate.
Defined.

(** ** Start: before the loop *)

Lemma settle_manage_new a :
  settle_manage a {["State" := VStr "Stopped"]} =
  inr (<["State" := VStr "Running"]>
         (<["Manage" := VStr (default "docker" (manage a))]>
            (<["Nodes" := VDict ∅]> {["State" := VStr "Stopped"]}))).
Proof.
  unfold settle_manage. cbn [py_getitem]. rewrite lookup_singleton_eq.
  change (py_eq_str (VStr "Stopped") "Stopped") with true. cbv iota.
  rewrite lookup_insert_ne by discriminate.
  rewrite lookup_singleton_ne by discriminate. reflexivity.
Qed.

Section BeforeLoop.
Context {W : Type} `{NodeDriver W}.

(** A start that raises before the loop has done nothing. *)
Lemma start_fails_before_loop a (m : machine W) e :
  result (start_resolve a m) = inl e ->
  do_cluster_start a m = Run m [] (inl e).
Proof. intros Hr. rewrite do_cluster_start_run, Hr. reflexivity. Qed.

(** What a successful resolution went through. *)
Lemma start_resolve_inv a (m : machine W) st ctl existing :
  result (start_resolve a m) = inr (st, ctl, existing) ->
  exists (loaded : gmap string pyval) recorded,
    result (load_or_stopped m) = inr (VDict loaded) /\
    settle_manage a loaded = inr st /\
    st !! "Manage" = Some recorded /\
    start_controller recorded = inr ctl /\
    vnm_get_node_names ctl (driver m) = inr existing.
Proof.
  intros Hr.
  destruct (result (load_or_stopped m)) as [e|loaded] eqn:El.
  { exfalso. unfold start_resolve in Hr.
    rewrite (bind_err _ _ m m [] e) in Hr; [discriminate|].
    rewrite load_or_stopped_run in *. cbn [result] in El. rewrite El.
    reflexivity. }
  destruct loaded as [| | | | |loaded].
  1-5: exfalso; unfold start_resolve in Hr;
       erewrite bind_pure_run in Hr;
       [|rewrite load_or_stopped_run in *; cbn [result] in El; rewrite El;
         reflexivity|reflexivity];
       discriminate.
  rewrite (start_resolve_loaded a m loaded El), start_settle_run in Hr.
  cbn [result] in Hr.
  destruct (settle_manage a loaded) as [e|st1] eqn:ES; [discriminate|].
  cbn [py_getitem] in Hr.
  destruct (st1 !! "Manage") as [recorded|] eqn:EM; [|discriminate].
  destruct (start_controller recorded) as [e|ctl1] eqn:EC; [discriminate|].
  destruct (vnm_get_node_names ctl1 (driver m)) as [e|ex1] eqn:EX;
    [discriminate|].
  injection Hr as <- <- <-.
  exists loaded, recorded. repeat apply conj; try reflexivity; assumption.
Qed.

(** A document the start wrote is the state the loop returned, which
    differs from the settled state in [Nodes] at most, and is on file. *)
Lemma start_written a (m : machine W) doc :
  In (WriteState doc) (emitted (do_cluster_start a m)) ->
  exists (st st' : gmap string pyval) ctl existing,
    result (start_resolve a m) = inr (st, ctl, existing) /\
    result (start_loop ctl existing (count a) st m) = inr st' /\
    doc = VDict st' /\
    (forall k, k <> "Nodes" -> st' !! k = st !! k) /\
    state_file (after (do_cluster_start a m)) = Document doc /\
    emitted (do_cluster_start a m) =
    (emitted (start_loop ctl existing (count a) st m) ++
     [WriteState doc; VnmUpdate])%list.
Proof.
  intros Hin.
  destruct (do_cluster_start_cases a m) as [[e He]|Hc].
  { rewrite He in Hin. destruct Hin. }
  destruct Hc as (state & ctl & existing & Hres & Hc).
  destruct (start_loop_facts ctl existing (count a) state m)
    as (started & _ & _ & Hloop & _ & _ & Hstate).
  destruct Hc as [(e & He & _)|(state' & Hr1 & _ & Hev & Hfile & _)].
  { rewrite He in Hin. cbn [emitted] in Hin.
    exfalso. exact (loop_events_no_write _ _ Hloop Hin). }
  rewrite Hev in Hin. apply in_app_iff in Hin.
  destruct Hin as [Hin|[[= <-]|[[=]|[]]]].
  { exfalso. exact (loop_events_no_write _ _ Hloop Hin). }
  exists state, state', ctl, existing. repeat apply conj.
  - rewrite Hres. reflexivity.
  - exact Hr1.
  - reflexivity.
  - intros k Hk. destruct (Hstate state' Hr1) as [[_ ->]|(nodes & _ & ->)];
      [reflexivity|]. apply lookup_insert_ne. congruence.
  - exact Hfile.
  - exact Hev.
Qed.

(** A successful start has written the document. *)
Lemma start_ok_written a (m : machine W) :
  result (do_cluster_start a m) = inr tt ->
  exists doc, In (WriteState doc) (emitted (do_cluster_start a m)).
Proof.
  intros Hok.
  destruct (do_cluster_start_cases a m) as [[e He]|Hc].
  { rewrite He in Hok. discriminate. }
  destruct Hc as (state & ctl & existing & _ & [(e & He & _)|Hc]).
  { rewrite He in Hok. discriminate. }
  destruct Hc as (state' & _ & _ & Hev & _).
  exists (VDict state'). rewrite Hev. apply in_app_iff. right. left.
  reflexivity.
Qed.

(** X4. On a new cluster (no state file) a successful start leaves a
    document whose [State] is ["Running"] and whose [Manage] is the
    requested management type, or ["docker"] when none was requested. *)
Theorem start_new_cluster_records_backend a (m : machine W) :
  state_file m = Missing ->
  result (do_cluster_start a m) = inr tt ->
  exists st : gmap string pyval,
    state_file (after (do_cluster_start a m)) = Document (VDict st) /\
    st !! "State" = Some (VStr "Running") /\
    st !! "Manage" = Some (VStr (default "docker" (manage a))).
Proof.
  intros EF Hok. destruct (start_ok_written a m Hok) as (doc & Hin).
  destruct (start_written a m doc Hin)
    as (st & st' & ctl & existing & Hres & _ & -> & Hkeys & Hfile & _).
  apply start_resolve_inv in Hres.
  destruct Hres as (loaded & recorded & Hl & Hs & _).
  rewrite load_or_stopped_run, EF in Hl. injection Hl as <-.
  rewrite settle_manage_new in Hs. injection Hs as <-.
  exists st'. repeat apply conj.
  - exact Hfile.
  - rewrite Hkeys by discriminate. apply lookup_insert_eq.
  - rewrite Hkeys by discriminate. rewrite lookup_insert_ne by discriminate.
    apply lookup_insert_eq.
Qed.

(** X5. The recorded management type is never replaced: whatever type is
    requested, a document that [do_cluster_start] writes over one that
    records [Manage] records the same value.  On a stopped cluster a
    different requested type is passed over without an error. *)
Theorem start_keeps_recorded_backend a (m : machine W)
    (state : gmap string pyval) recorded doc :
  state_file m = Document (VDict state) ->
  state !! "Manage" = Some recorded ->
  In (WriteState doc) (emitted (do_cluster_start a m)) ->
  exists st : gmap string pyval,
    doc = VDict st /\
    state_file (after (do_cluster_start a m)) = Document (VDict st) /\
    st !! "Manage" = Some recorded.
Proof.
  intros EF EM Hin.
  destruct (start_written a m doc Hin)
    as (st & st' & ctl & existing & Hres & _ & -> & Hkeys & Hfile & _).
  apply start_resolve_inv in Hres.
  destruct Hres as (loaded & recorded' & Hl & Hs & _).
  rewrite load_or_stopped_run, EF in Hl. injection Hl as <-.
  apply settle_manage_ok in Hs. destruct Hs as (_ & _ & _ & Hkeep & _).
  exists st'. repeat apply conj; [reflexivity|exact Hfile|].
  rewrite Hkeys by discriminate. apply Hkeep, EM.
Qed.


(** X7. When [get_node_names] raises in [do_cluster_start], the start
    ends there with nothing emitted and the state file unchanged; a
    [ManagementError] comes out as a [CliException] carrying its text,
    any other exception as it is. *)
Theorem start_listing_failure a (m : machine W)
    (loaded st : gmap string pyval) recorded ctl e :
  result (load_or_stopped m) = inr (VDict loaded) ->
  settle_manage a loaded = inr st ->
  st !! "Manage" = Some recorded ->
  start_controller recorded = inr ctl ->
  vnm_get_node_names ctl (driver m) = inl e ->
  do_cluster_start a m = Run m [] (inl (wrap_management e)) /\
  (forall msg, e = ManagementError msg ->
     result (do_cluster_start a m) = inl (CliException (StrOf msg))).
Proof.
  intros Hl Hs EM EC EX.
  assert (Hrun : do_cluster_start a m = Run m [] (inl (wrap_management e))).
  { apply start_fails_before_loop.
    rewrite (start_resolve_loaded a m loaded Hl), start_settle_run, Hs.
    cbn [py_getitem result]. rewrite EM, EC, EX. reflexivity. }
  split; [exact Hrun|]. intros msg ->. rewrite Hrun. reflexivity.
Qed.

(** X8. A state document that is not a mapping (an empty file loads as
    [None]) makes [do_cluster_start] raise [TypeError], and a mapping
    without [State] makes it raise [KeyError]; either way nothing is
    emitted and the file is left as it was. *)
Theorem start_malformed_document a (m : machine W) doc :
  state_file m = Document doc ->
  match doc with
  | VDict state => state !! "State" = None
  | _ => True
  end ->
  do_cluster_start a m =
  Run m [] (inl match doc with
                | VDict _ => KeyError "State"
                | _ => TypeError
                end).
Proof.
  intros EF Hdoc. apply start_fails_before_loop.
  destruct doc as [| | | | |state].
  1-5: unfold start_resolve;
       erewrite bind_pure by (rewrite load_or_stopped_run, EF; reflexivity);
       reflexivity.
  rewrite (start_resolve_document a m state EF), start_settle_run.
  unfold settle_manage. cbn [py_getitem]. rewrite Hdoc. reflexivity.
Qed.

End BeforeLoop.

Lemma start_new_cluster_records_backend_witness :
  exists st : gmap string pyval,
    state_file (after (do_cluster_start (Runs.start 2 (Some "daemon"))
                         (Runs.fresh TestDriver.idle))) =
    Document (VDict st) /\
    st !! "State" = Some (VStr "Running") /\
    st !! "Manage" = Some (VStr "daemon").
Proof.
  apply (start_new_cluster_records_backend (Runs.start 2 (Some "daemon"))
           (Runs.fresh TestDriver.idle)).
  - reflexivity.
  - vm_compute. reflexivity.
Defined.

Lemma start_keeps_recorded_backend_witness :
  exists st : gmap string pyval,
    state_file
      (after (do_cluster_start (Runs.start 0 (Some "daemon"))
                (Runs.with_document Documents.stopped_stale TestDriver.idle))) =
    Document (VDict st) /\
    st !! "Manage" = Some (VStr "docker").
Proof.
  destruct (start_keeps_recorded_backend (Runs.start 0 (Some "daemon"))
              (Runs.with_document Documents.stopped_stale TestDriver.idle)
              Documents.stopped_stale (VStr "docker")
              (VDict (<["State" := VStr "Running"]>
                        (<["Nodes" := VDict ∅]> Documents.stopped_stale))))
    as (st & _ & Hf & Hm).
  - reflexivity.
  - vm_compute. reflexivity.
  - vm_compute. left. reflexivity.
  - exists st. split; assumption.
Defined.


Lemma start_listing_failure_witness :
  do_cluster_start (Runs.start 2 None)
    (Machine Missing true FlakyDriver.no_listing) =
  Run (Machine Missing true FlakyDriver.no_listing) []
    (inl (CliException (StrOf "cannot list nodes"))).
Proof.
  apply (start_listing_failure (Runs.start 2 None)
           (Machine Missing true FlakyDriver.no_listing)
           {["State" := VStr "Stopped"]}
           (<["State" := VStr "Running"]>
              (<["Manage" := VStr "docker"]>
                 (<["Nodes" := VDict ∅]> {["State" := VStr "Stopped"]})))
           (VStr "docker") DockerNodeController
           (ManagementError "cannot list nodes")).
  - reflexivity.
  - apply (settle_manage_new (Runs.start 2 None)).
  - vm_compute. reflexivity.
  - reflexivity.
  - reflexivity.
Defined.

Lemma start_malformed_document_witness :
  do_cluster_start (Runs.start 2 None)
    (Machine (Document VNone) true TestDriver.idle) =
  Run (Machine (Document VNone) true TestDriver.idle) [] (inl TypeError).
Proof.
  apply (start_malformed_document (Runs.start 2 None)
           (Machine (Document VNone) true TestDriver.idle) VNone).
  - reflexivity.
  - exact I.
Defined.

(** ** Start: the loop, the write and the update *)

Lemma stop_targets_loop_events (evs : list event) :
  forallb loop_event evs = true -> stop_targets evs = [].
Proof.
  induction evs as [|ev evs IH]; [reflexivity|].
  destruct ev; cbn; try discriminate; exact IH.
Qed.

Lemma record_started_keeps started : forall (nodes : gmap string pyval) name,
  is_Some (nodes !! name) ->
  is_Some (record_started started nodes !! name).
Proof.
  induction started as [|j started IH]; intros nodes name Hs; [exact Hs|].
  rewrite record_started_cons. apply IH.
  destruct (decide (node_name j = name)) as [<-|Hne].
  - rewrite lookup_insert_eq. eauto.
  - rewrite lookup_insert_ne by exact Hne. exact Hs.
Qed.

(** A running cluster with a recorded management type settles to the
    state it had, unless a second type is refused. *)
Lemma settle_manage_running a (state st : gmap string pyval) recorded :
  state !! "State" = Some (VStr "Running") ->
  state !! "Manage" = Some recorded ->
  settle_manage a state = inr st ->
  st = state.
Proof.
  intros ES EM. unfold settle_manage. cbn [py_getitem]. rewrite ES.
  change (py_eq_str (VStr "Running") "Stopped") with false. cbv iota.
  rewrite EM.
  assert (Hid : <["State" := VStr "Running"]> state = state)
    by (apply insert_id; exact ES).
  destruct (manage a) as [requested|].
  - destruct (negb (py_eq_str recorded requested) &&
              py_eq_str (VStr "Running") "Running"); [discriminate|].
    intros [= <-]. exact Hid.
  - intros [= <-]. exact Hid.
Qed.

Section LoopAndAfter.
Context {W : Type} `{NodeDriver W}.

(** Ordinals that are listed and seen running only add their lines in
    front of what the rest of the loop does. *)
Lemma start_nodes_app_running ctl existing l1 l2 state (m : machine W) :
  (forall i, In i l1 ->
     node_name i ∈ existing /\
     vnm_is_running ctl (node_name i) (driver m) = inr true) ->
  start_nodes ctl existing (l1 ++ l2) state m =
  Run (after (start_nodes ctl existing l2 state m))
      (map already_running_line l1 ++
       emitted (start_nodes ctl existing l2 state m))
      (result (start_nodes ctl existing l2 state m)).
Proof.
  induction l1 as [|i l1 IH]; intros Hall.
  - cbn [app map]. symmetry. apply run_eta.
  - destruct (Hall i (or_introl eq_refl)) as [Hin Hrun].
    cbn [app]. rewrite start_nodes_cons.
    rewrite bool_decide_eq_true_2 by exact Hin. rewrite Hrun. cbv zeta.
    rewrite IH by (intros j Hj; apply Hall; right; exact Hj).
    reflexivity.
Qed.

(** Ordinals that are not listed all get their start action when the
    loop goes through. *)
Lemma start_nodes_all_new ctl existing l : forall state (m : machine W) state',
  (forall i, In i l -> node_name i ∉ existing) ->
  result (start_nodes ctl existing l state m) = inr state' ->
  gen_starts (emitted (start_nodes ctl existing l state m)) =
  map start_action l.
Proof.
  induction l as [|i l IH]; intros state m state' Hnew Hok; [reflexivity|].
  rewrite start_nodes_cons in Hok |- *.
  rewrite bool_decide_eq_false_2 in Hok |- *
    by (apply Hnew; left; reflexivity).
  cbv zeta in Hok |- *.
  destruct (snd (generator_start (node_name i) 8800 5500 (Nat.eqb i 0) (driver m)));
    [discriminate|].
  destruct (set_node state (node_name i) (node_record i)) as [e|state1];
    [discriminate|].
  cbn [result emitted] in Hok |- *.
  change (gen_starts ([Print ("Starting: " ++ node_name i); start_action i] ++ ?l))
    with (start_action i :: gen_starts l).
  cbn [map]. f_equal.
  apply (IH state1 _ state'); [|exact Hok].
  intros j Hj. apply Hnew. right. exact Hj.
Qed.

(** X9. A document of a cluster that is not stopped and has no [Nodes]
    key breaks the start at its first start action: with a count
    between 1 and [sys.maxint], when validator-000 is not listed, or is
    seen stopped, and the generator's [start] returns for it, the
    assignment to [state["Nodes"]] raises [KeyError]; the action has
    been issued, nothing is written and [update] is not called. *)
Theorem start_running_without_nodes a (m : machine W)
    (loaded st : gmap string pyval) lifecycle ctl existing w' :
  state_file m = Document (VDict loaded) ->
  loaded !! "State" = Some lifecycle ->
  py_eq_str lifecycle "Stopped" = false ->
  loaded !! "Nodes" = None ->
  result (start_resolve a m) = inr (st, ctl, existing) ->
  (1 <= count a <= sys_maxint)%Z ->
  node_name 0 ∉ existing \/
  vnm_is_running ctl (node_name 0) (driver m) = inr false ->
  generator_start (node_name 0) 8800 5500 true (driver m) = (w', None) ->
  do_cluster_start a m =
  Run (with_driver m w')
      [Print ("Starting: " ++ node_name 0); start_action 0]
      (inl (KeyError "Nodes")).
Proof.
  intros EF ES Hlc EN Hres Hcount Hdown Hgen.
  destruct (start_resolve_run a m) as (res & Hrun & Hprops).
  assert (Hres' := Hres). rewrite Hrun in Hres'. cbn [result] in Hres'.
  destruct (Hprops st ctl existing Hres') as (_ & _ & _ & _ & _ & Hloaded).
  pose proof (Hloaded loaded lifecycle EF ES Hlc) as Hn. rewrite EN in Hn.
  assert (Hx : xrange0 (count a) = 0%nat :: seq 1 (Z.to_nat (count a) - 1)).
  { unfold xrange0. destruct (Z.to_nat (count a)) as [|n] eqn:En; [lia|].
    cbn [seq]. f_equal. f_equal. lia. }
  assert (Hloop : start_loop ctl existing (count a) st m =
                  Run (with_driver m w')
                      [Print ("Starting: " ++ node_name 0); start_action 0]
                      (inl (KeyError "Nodes"))).
  { rewrite start_loop_run.
    replace (fits_c_long (count a)) with true
      by (symmetry; unfold fits_c_long; apply andb_true_intro;
          unfold sys_maxint in *; split; apply Z.leb_le; lia).
    rewrite Hx, start_nodes_cons.
    assert (E : (if bool_decide (node_name 0 ∈ existing)
                 then vnm_is_running ctl (node_name 0) (driver m)
                 else inr false) = inr false).
    { destruct Hdown as [Hout|Hstopped].
      - rewrite bool_decide_eq_false_2 by exact Hout. reflexivity.
      - rewrite Hstopped. destruct (bool_decide _); reflexivity. }
    rewrite E. cbv zeta. change (Nat.eqb 0 0) with true. rewrite Hgen.
    cbn [fst snd]. unfold set_node. rewrite Hn. reflexivity. }
  rewrite do_cluster_start_run, Hres. cbv zeta. rewrite Hloop.
  reflexivity.
Qed.

(** X10. [update] comes after the write and nothing is rolled back: in
    any run of [do_cluster_start] that reaches [vnm.update()], the trace
    is the loop's lines and start actions, then the write, then the
    update, and the written document is on file whether or not the
    update raises. *)
Theorem start_update_after_write a (m : machine W) :
  In VnmUpdate (emitted (do_cluster_start a m)) ->
  exists (st' : gmap string pyval) pre,
    emitted (do_cluster_start a m) =
    (pre ++ [WriteState (VDict st'); VnmUpdate])%list /\
    forallb loop_event pre = true /\
    state_file (after (do_cluster_start a m)) = Document (VDict st').
Proof.
  intros Hin.
  destruct (do_cluster_start_cases a m) as [[e He]|Hc].
  { rewrite He in Hin. destruct Hin. }
  destruct Hc as (state & ctl & existing & _ & Hc).
  destruct (start_loop_facts ctl existing (count a) state m)
    as (started & _ & _ & Hloop & _).
  destruct Hc as [(e & He & _)|(state' & _ & _ & Hev & Hfile & _)].
  { rewrite He in Hin. cbn [emitted] in Hin.
    rewrite forallb_forall in Hloop. apply Hloop in Hin. discriminate. }
  exists state', (emitted (start_loop ctl existing (count a) state m)).
  repeat apply conj; assumption.
Qed.

(** X11. Growing a cluster: when the validators below [n1] are listed
    and seen running and those from [n1] up to the count are not listed,
    a successful start issues start actions for the ordinals [n1] to
    count-1, in that order, and for no other. *)
Theorem start_grows a (m : machine W) st ctl existing (n1 : nat) :
  result (start_resolve a m) = inr (st, ctl, existing) ->
  (n1 <= Z.to_nat (count a))%nat ->
  (forall i : nat, (i < n1)%nat ->
     node_name i ∈ existing /\
     vnm_is_running ctl (node_name i) (driver m) = inr true) ->
  (forall i : nat, (n1 <= i)%nat -> (Z.of_nat i < count a)%Z ->
     node_name i ∉ existing) ->
  result (do_cluster_start a m) = inr tt ->
  gen_starts (emitted (do_cluster_start a m)) =
  map start_action (seq n1 (Z.to_nat (count a) - n1)).
Proof.
  intros Hres Hn1 Hold Hnew Hok.
  assert (Hx : xrange0 (count a) =
               (seq 0 n1 ++ seq n1 (Z.to_nat (count a) - n1))%list).
  { unfold xrange0. rewrite <- seq_app. f_equal. lia. }
  pose proof (do_cluster_start_run a m) as Hrun.
  rewrite Hres in Hrun. cbv zeta in Hrun.
  rewrite start_loop_run, (start_ok_fits a m Hok), Hx in Hrun.
  rewrite start_nodes_app_running in Hrun
    by (intros i Hi; apply Hold; apply in_seq in Hi; lia).
  cbn [after emitted result] in Hrun.
  destruct (result (start_nodes ctl existing
                      (seq n1 (Z.to_nat (count a) - n1)) st m))
    as [e|st'] eqn:E2.
  { rewrite Hrun in Hok. discriminate. }
  assert (Hg : gen_starts (emitted (start_nodes ctl existing
                 (seq n1 (Z.to_nat (count a) - n1)) st m)) =
               map start_action (seq n1 (Z.to_nat (count a) - n1))).
  { apply (start_nodes_all_new _ _ _ _ _ st'); [|exact E2].
    intros i Hi. apply in_seq in Hi. apply Hnew; lia. }
  assert (Hp : gen_starts (map already_running_line (seq 0 n1)) = []).
  { apply gen_starts_already_running. }
  destruct (writable m).
  - rewrite Hrun. cbn [emitted].
    rewrite !gen_starts_app, Hp, Hg. cbn. apply app_nil_r.
  - rewrite Hrun in Hok. discriminate.
Qed.

(** X12. The start actions of a start come in increasing ordinal order,
    at most one per ordinal below the count, and a start never hands a
    name to the generator's [stop]. *)
Theorem start_actions_in_order a (m : machine W) :
  exists started,
    sublist started (seq 0 (Z.to_nat (count a))) /\
    NoDup started /\
    gen_starts (emitted (do_cluster_start a m)) = map start_action started /\
    stop_targets (emitted (do_cluster_start a m)) = [].
Proof.
  destruct (do_cluster_start_gen_starts a m) as (started & Hsub & Hgs).
  exists started. repeat apply conj.
  - exact Hsub.
  - apply (sublist_NoDup _ (xrange0 (count a))); [apply NoDup_seq|exact Hsub].
  - exact Hgs.
  - destruct (do_cluster_start_cases a m) as [[e He]|Hc].
    { rewrite He. reflexivity. }
    destruct Hc as (state & ctl & existing & _ & Hc).
    destruct (start_loop_facts ctl existing (count a) state m)
      as (started' & _ & _ & Hloop & _).
    destruct Hc as [(e & He & _)|(state' & _ & _ & Hev & _)].
    + rewrite He. apply stop_targets_loop_events. exact Hloop.
    + rewrite Hev, stop_targets_app, (stop_targets_loop_events _ Hloop).
      reflexivity.
Qed.

(** X13. On a cluster that is not stopped a start only adds records:
    every name the loaded [Nodes] maps is still mapped in the document
    the start writes, and every entry of that document is either the
    loaded one or the record of an ordinal below the count.  A smaller
    count removes nothing. *)
Theorem start_keeps_running_records a (m : machine W)
    (loaded nodes0 : gmap string pyval) lifecycle doc :
  state_file m = Document (VDict loaded) ->
  loaded !! "State" = Some lifecycle ->
  py_eq_str lifecycle "Stopped" = false ->
  loaded !! "Nodes" = Some (VDict nodes0) ->
  In (WriteState doc) (emitted (do_cluster_start a m)) ->
  exists nodes,
    persisted_nodes (after (do_cluster_start a m)) = Some nodes /\
    (forall name, is_Some (nodes0 !! name) -> is_Some (nodes !! name)) /\
    (forall name v, nodes !! name = Some v ->
       nodes0 !! name = Some v \/
       exists i : nat,
         (Z.of_nat i < count a)%Z /\ name = node_name i /\ v = node_record i).
Proof.
  intros EF ES Hlc EN Hin.
  destruct (start_written a m doc Hin)
    as (st & st' & ctl & existing & Hres & Hr1 & -> & _ & Hfile & _).
  destruct (start_resolve_run a m) as (res & Hrun & Hprops).
  rewrite Hrun in Hres. cbn [result] in Hres.
  destruct (Hprops st ctl existing Hres) as (_ & _ & _ & _ & _ & Hloaded).
  pose proof (Hloaded loaded lifecycle EF ES Hlc) as Hn. rewrite EN in Hn.
  destruct (start_loop_facts ctl existing (count a) st m)
    as (started & Hsub & _ & _ & _ & _ & Hstate).
  unfold persisted_nodes. rewrite Hfile.
  destruct (Hstate st' Hr1) as [[_ ->]|(nodes & Hn' & ->)].
  - rewrite Hn. exists nodes0. repeat apply conj; [reflexivity|auto|auto].
  - rewrite lookup_insert_eq. rewrite Hn in Hn'. injection Hn' as <-.
    eexists. repeat apply conj; [reflexivity| |].
    + intros name. apply record_started_keeps.
    + intros name v Hl. apply record_started_keys in Hl.
      destruct Hl as [Hl|(i & Hi & -> & ->)]; [left; exact Hl|].
      right. exists i. repeat apply conj; try reflexivity.
      apply In_xrange0, list_elem_of_In.
      eapply elem_of_sublist; [|exact Hsub]. apply list_elem_of_In, Hi.
Qed.

(** X14. Starting again changes nothing on file: after a successful
    start, when the controller of the recorded management type lists
    every validator below the count and sees it running, a second start
    with the same arguments leaves the state file exactly as the first
    one wrote it, whether it succeeds or not. *)
Theorem start_again_same_document a (m : machine W) :
  result (do_cluster_start a m) = inr tt ->
  (forall ctl,
     recorded_controller (after (do_cluster_start a m)) = Some ctl ->
     forall i : nat, (Z.of_nat i < count a)%Z ->
       reports_running ctl (driver (after (do_cluster_start a m)))
         (node_name i)) ->
  state_file (after (do_cluster_start a (after (do_cluster_start a m)))) =
  state_file (after (do_cluster_start a m)).
Proof.
  intros Hok Hup.
  destruct (start_ok_written a m Hok) as (doc & Hin).
  destruct (start_written a m doc Hin)
    as (st & st' & ctl & existing & Hres & _ & -> & Hkeys & Hfile & _).
  destruct (start_resolve_run a m) as (res & Hrun & Hprops).
  rewrite Hrun in Hres. cbn [result] in Hres.
  destruct (Hprops st ctl existing Hres)
    as (Hs & _ & (recorded & Hm & Hc) & _).
  assert (Hs' : st' !! "State" = Some (VStr "Running"))
    by (rewrite Hkeys by discriminate; exact Hs).
  assert (Hm' : st' !! "Manage" = Some recorded)
    by (rewrite Hkeys by discriminate; exact Hm).
  set (m1 := after (do_cluster_start a m)) in *.
  assert (Hctl : recorded_controller m1 = Some ctl).
  { unfold recorded_controller. rewrite Hfile, Hm', Hc. reflexivity. }
  specialize (Hup ctl Hctl).
  destruct (do_cluster_start_cases a m1) as [[e He]|Hcase].
  { rewrite He. reflexivity. }
  destruct Hcase as (st2 & ctl2 & existing2 & Hres2 & Hcase).
  assert (Hres2' : result (start_resolve a m1) = inr (st2, ctl2, existing2))
    by (rewrite Hres2; reflexivity).
  apply start_resolve_inv in Hres2'.
  destruct Hres2' as (loaded & recorded2 & Hl & Hsettle & Hm2 & Hc2 & Hnames).
  rewrite load_or_stopped_run, Hfile in Hl. injection Hl as <-.
  apply (settle_manage_running a st' st2 recorded Hs' Hm') in Hsettle.
  subst st2. rewrite Hm' in Hm2. injection Hm2 as <-.
  rewrite Hc in Hc2. injection Hc2 as <-.
  assert (Hloop : start_loop ctl existing2 (count a) st' m1 =
    Run m1 (map (fun i => Print ("Already running: " ++ node_name i))
              (xrange0 (count a))) (inr st')).
  { rewrite start_loop_run, (start_ok_fits a m Hok).
    apply start_nodes_all_running. intros i Hi. apply In_xrange0 in Hi.
    destruct (Hup i Hi) as (names & Hn & Hin' & Hrun').
    rewrite Hnames in Hn. injection Hn as <-. split; assumption. }
  rewrite Hloop in Hcase. cbn [emitted after result] in Hcase.
  destruct Hcase as [(e & He & _)|(state' & Hst & _ & _ & Hfile2 & _)].
  - rewrite He. reflexivity.
  - injection Hst as <-. rewrite Hfile2, Hfile. reflexivity.
Qed.

(** X15. When the state file cannot be opened for writing, a start whose
    loop went through raises [IOError] after its start actions have
    been issued: the trace is the loop's, [update] is not called, and
    the state file is left as it was. *)
Theorem start_write_failure a (m : machine W) :
  writable m = false ->
  state_file (after (do_cluster_start a m)) = state_file m /\
  ~ In VnmUpdate (emitted (do_cluster_start a m)) /\
  result (do_cluster_start a m) <> inr tt /\
  (forall st ctl existing st',
     result (start_resolve a m) = inr (st, ctl, existing) ->
     result (start_loop ctl existing (count a) st m) = inr st' ->
     result (do_cluster_start a m) = inl IOError /\
     emitted (do_cluster_start a m) =
     emitted (start_loop ctl existing (count a) st m)).
Proof.
  intros Hw. rewrite do_cluster_start_run.
  destruct (result (start_resolve a m)) as [e|[[st ctl] existing]] eqn:Hres.
  { repeat apply conj; try reflexivity; try discriminate.
    intros []. }
  cbv zeta.
  destruct (start_loop_facts ctl existing (count a) st m)
    as (started & _ & _ & Hloop & Hf & _).
  assert (Hnu : ~ In VnmUpdate
                  (emitted (start_loop ctl existing (count a) st m))).
  { intros Hin. rewrite forallb_forall in Hloop. apply Hloop in Hin.
    discriminate. }
  rewrite Hw.
  destruct (result (start_loop ctl existing (count a) st m))
    as [e|st'] eqn:E1; cbn [after emitted result];
    (repeat apply conj; [exact Hf|exact Hnu|discriminate|]).
  - intros st0 ctl0 ex0 st0' [= <- <- <-]. rewrite E1. discriminate.
  - intros st0 ctl0 ex0 st0' [= <- <- <-] _. split; reflexivity.
Qed.

End LoopAndAfter.

Lemma start_running_without_nodes_witness :
  do_cluster_start (Runs.start 2 None)
    (Runs.with_document MoreDocuments.running_without_nodes TestDriver.idle) =
  Run (with_driver
         (Runs.with_document MoreDocuments.running_without_nodes TestDriver.idle)
         TestDriver.genesis_up)
      [Print ("Starting: " ++ node_name 0); start_action 0]
      (inl (KeyError "Nodes")).
Proof.
  apply (start_running_without_nodes (Runs.start 2 None)
           (Runs.with_document MoreDocuments.running_without_nodes TestDriver.idle)
           MoreDocuments.running_without_nodes
           (<["State" := VStr "Running"]> MoreDocuments.running_without_nodes)
           (VStr "Running") DockerNodeController []).
  - reflexivity.
  - vm_compute. reflexivity.
  - reflexivity.
  - vm_compute. reflexivity.
  - vm_compute. reflexivity.
  - cbn. unfold sys_maxint. lia.
  - left. apply not_elem_of_nil.
  - reflexivity.
Defined.

Lemma start_update_after_write_witness :
  result (do_cluster_start (Runs.start 1 None)
            (Machine Missing true FlakyDriver.no_update)) =
  inl (CliException (StrOf "cannot update")) /\
  exists (st' : gmap string pyval) pre,
    emitted (do_cluster_start (Runs.start 1 None)
               (Machine Missing true FlakyDriver.no_update)) =
    (pre ++ [WriteState (VDict st'); VnmUpdate])%list /\
    forallb loop_event pre = true /\
    state_file (after (do_cluster_start (Runs.start 1 None)
                         (Machine Missing true FlakyDriver.no_update))) =
    Document (VDict st').
Proof.
  split; [vm_compute; reflexivity|].
  apply (start_update_after_write (Runs.start 1 None)
           (Machine Missing true FlakyDriver.no_update)).
  vm_compute. repeat first [left; reflexivity | right].
Defined.

Lemma start_grows_witness :
  gen_starts (emitted (do_cluster_start (Runs.start 3 None)
                         (Runs.fresh TestDriver.genesis_up))) =
  [start_action 1; start_action 2].
Proof.
  apply (start_grows (Runs.start 3 None) (Runs.fresh TestDriver.genesis_up)
           (<["State" := VStr "Running"]>
              (<["Manage" := VStr "docker"]>
                 (<["Nodes" := VDict ∅]> {["State" := VStr "Stopped"]})))
           DockerNodeController [node_name 0] 1).
  - vm_compute. reflexivity.
  - cbn. lia.
  - intros i Hi. replace i with 0%nat by lia.
    split; [apply list_elem_of_singleton; reflexivity|vm_compute; reflexivity].
  - intros i Hi _ Hin. apply list_elem_of_singleton in Hin.
    apply node_name_inj in Hin. lia.
  - vm_compute. reflexivity.
Defined.

Lemma start_keeps_running_records_witness :
  exists nodes,
    persisted_nodes
      (after (do_cluster_start (Runs.start 1 None)
                (Runs.with_document MoreDocuments.running_with_seven
                   TestDriver.idle))) = Some nodes /\
    is_Some (nodes !! node_name 7).
Proof.
  destruct (start_keeps_running_records (Runs.start 1 None)
              (Runs.with_document MoreDocuments.running_with_seven
                 TestDriver.idle)
              MoreDocuments.running_with_seven
              {[node_name 7 := node_record 7]} (VStr "Running")
              (VDict (<["Nodes" := VDict (<[node_name 0 := node_record 0]>
                                            {[node_name 7 := node_record 7]})]>
                        MoreDocuments.running_with_seven)))
    as (nodes & Hp & Hkeep & _).
  - reflexivity.
  - vm_compute. reflexivity.
  - reflexivity.
  - vm_compute. reflexivity.
  - vm_compute. repeat first [left; reflexivity | right].
  - exists nodes. split; [exact Hp|]. apply Hkeep.
    rewrite lookup_singleton_eq. eauto.
Defined.

Lemma start_again_same_document_witness :
  state_file
    (after (do_cluster_start (Runs.start 2 None)
              (after (do_cluster_start (Runs.start 2 None)
                        (Runs.fresh TestDriver.idle))))) =
  state_file (after (do_cluster_start (Runs.start 2 None)
                       (Runs.fresh TestDriver.idle))).
Proof.
  apply (start_again_same_document (Runs.start 2 None)
           (Runs.fresh TestDriver.idle)).
  - vm_compute. reflexivity.
  - intros ctl _ i Hi. exists ["validator-001"; "validator-000"].
    destruct i as [|[|i]]; [| |cbn in Hi; lia].
    + repeat apply conj; [vm_compute; reflexivity| |vm_compute; reflexivity].
      apply list_elem_of_In. vm_compute. tauto.
    + repeat apply conj; [vm_compute; reflexivity| |vm_compute; reflexivity].
      apply list_elem_of_In. vm_compute. tauto.
Defined.

Lemma start_write_failure_witness :
  result (do_cluster_start (Runs.start 1 None)
            (Machine Missing false TestDriver.idle)) = inl IOError /\
  emitted (do_cluster_start (Runs.start 1 None)
             (Machine Missing false TestDriver.idle)) =
  [Print ("Starting: " ++ node_name 0); start_action 0].
Proof.
  destruct (start_write_failure (Runs.start 1 None)
              (Machine Missing false TestDriver.idle) eq_refl)
    as (_ & _ & _ & Hloop).
  destruct (Hloop (<["State" := VStr "Running"]>
                     (<["Manage" := VStr "docker"]>
                        (<["Nodes" := VDict ∅]> {["State" := VStr "Stopped"]})))
              DockerNodeController []
              (<["Nodes" := VDict {[node_name 0 := node_record 0]}]>
                 (<["State" := VStr "Running"]>
                    (<["Manage" := VStr "docker"]>
                       (<["Nodes" := VDict ∅]> {["State" := VStr "Stopped"]})))))
    as (Hr & He).
  - vm_compute. reflexivity.
  - vm_compute. reflexivity.
  - split; [exact Hr|]. rewrite He. vm_compute. reflexivity.
Defined.

(** ** Stop and status: what they read and how they fail *)

Section StopStatusMore.
Context {W : Type} `{NodeDriver W}.

(** The stop loop sees the driver only. *)
Lemma stop_nodes_driver names : forall m1 m2 : machine W,
  driver m1 = driver m2 ->
  emitted (stop_nodes names m1) = emitted (stop_nodes names m2) /\
  result (stop_nodes names m1) = result (stop_nodes names m2) /\
  driver (after (stop_nodes names m1)) = driver (after (stop_nodes names m2)).
Proof.
  induction names as [|name rest IH]; intros m1 m2 Hd.
  - cbn. repeat apply conj; [reflexivity|reflexivity|exact Hd].
  - rewrite !stop_nodes_cons, Hd. cbv zeta.
    destruct (generator_stop name (driver m2)) as [w [e|]]; cbn [fst snd].
    + repeat apply conj; reflexivity.
    + destruct (IH (with_driver m1 w) (with_driver m2 w) eq_refl)
        as (He & Hr & Ha).
      cbn [after emitted result]. rewrite He. repeat apply conj; auto.
Qed.

(** The status loop sees the driver only. *)
Lemma status_nodes_driver ctl names : forall m1 m2 : machine W,
  driver m1 = driver m2 ->
  emitted (status_nodes ctl names m1) = emitted (status_nodes ctl names m2) /\
  result (status_nodes ctl names m1) = result (status_nodes ctl names m2).
Proof.
  induction names as [|name rest IH]; intros m1 m2 Hd.
  - split; reflexivity.
  - rewrite !status_nodes_cons, Hd.
    destruct (vnm_status ctl name (driver m2)) as [e|st].
    + split; reflexivity.
    + destruct (IH m1 m2 Hd) as (He & Hr). cbn [emitted result].
      rewrite He. split; [reflexivity|exact Hr].
Qed.

(** X16. [do_cluster_status] is a pure query: it leaves the machine as
    it found it, emits print lines only, and what it prints and returns
    depends on the driver alone, not on the state file or on whether it
    exists. *)
Theorem status_read_only a (m : machine W) :
  after (do_cluster_status a m) = m /\
  forallb is_print (emitted (do_cluster_status a m)) = true /\
  forall file can_write,
    emitted (do_cluster_status a (Machine file can_write (driver m))) =
    emitted (do_cluster_status a m) /\
    result (do_cluster_status a (Machine file can_write (driver m))) =
    result (do_cluster_status a m).
Proof.
  destruct (do_cluster_status_quiet a m) as (Ha & Hp).
  split; [exact Ha|]. split; [exact Hp|].
  intros file can_write. rewrite !do_cluster_status_run. cbn [driver].
  destruct (status_controller (manage a)) as [e|ctl];
    [split; reflexivity|].
  destruct (resolved_names a ctl (driver m)) as [e|names];
    [split; reflexivity|].
  apply (status_nodes_driver ctl names). reflexivity.
Qed.

(** X17. Without a usable state file [do_cluster_stop] stops nothing,
    even when names are given: a file that cannot be opened gives the
    [CliException] of the [IOError], one that does not parse the YAML
    error, and a document that is not a mapping a [TypeError]; no stop
    action is issued and [update] is not called. *)
Theorem stop_unusable_state_file a (m : machine W) :
  match state_file m with
  | Document (VDict _) => False
  | _ => True
  end ->
  do_cluster_stop a m =
  Run m [] (inl match state_file m with
                | Missing => CliException StrOfIOError
                | Unparsable => YAMLError
                | Document _ => TypeError
                end).
Proof.
  intros Hf. rewrite do_cluster_stop_run.
  destruct (state_file m) as [| |[| | | | |state]];
    try reflexivity. destruct Hf.
Qed.

(** X18. In [stop] and [status] with no names given, an exception of
    [get_node_names] leaves the command as it is, a [ManagementError]
    included: it is not turned into a [CliException] as in [start], and
    nothing has been emitted. *)
Theorem listing_failure_not_wrapped a b (m ms : machine W) doc recorded
    ctl sctl e se :
  state_file m = Document doc ->
  py_getitem doc "Manage" = inr recorded ->
  stop_controller recorded = inr ctl ->
  node_names a = [] ->
  vnm_get_node_names ctl (driver m) = inl e ->
  status_controller (manage b) = inr sctl ->
  node_names b = [] ->
  vnm_get_node_names sctl (driver ms) = inl se ->
  do_cluster_stop a m = Run m [] (inl e) /\
  do_cluster_status b ms = Run ms [] (inl se).
Proof.
  intros EF EM EC Ea EX ESC Eb ESX. split.
  - rewrite do_cluster_stop_run, EF, EM, EC. unfold resolved_names.
    rewrite Ea. cbn [List.length Nat.ltb Nat.leb]. rewrite EX. reflexivity.
  - rewrite do_cluster_status_run, ESC. unfold resolved_names.
    rewrite Eb. cbn [List.length Nat.ltb Nat.leb]. rewrite ESX. reflexivity.
Qed.

(** X19. [do_cluster_stop] reads nothing of the state document but the
    controller its [Manage] stands for: two documents whose [Manage]
    give the same controller (a null [Manage] and ["docker"], say) lead
    to the same trace, the same result and the same driver world,
    whatever their [State] and [Nodes]. *)
Theorem stop_reads_manage_only a (m1 m2 : machine W) doc1 doc2 r1 r2 :
  state_file m1 = Document doc1 ->
  state_file m2 = Document doc2 ->
  py_getitem doc1 "Manage" = inr r1 ->
  py_getitem doc2 "Manage" = inr r2 ->
  stop_controller r1 = stop_controller r2 ->
  driver m1 = driver m2 ->
  emitted (do_cluster_stop a m1) = emitted (do_cluster_stop a m2) /\
  result (do_cluster_stop a m1) = result (do_cluster_stop a m2) /\
  driver (after (do_cluster_stop a m1)) = driver (after (do_cluster_stop a m2)).
Proof.
  intros E1 E2 M1 M2 Hc Hd.
  rewrite !do_cluster_stop_run, E1, E2, M1, M2, Hc, Hd.
  destruct (stop_controller r2) as [e|ctl];
    [repeat apply conj; [reflexivity|reflexivity|exact Hd]|].
  destruct (resolved_names a ctl (driver m2)) as [e|names];
    [repeat apply conj; [reflexivity|reflexivity|exact Hd]|].
  destruct (stop_nodes_driver names m1 m2 Hd) as (He & Hr & Ha).
  cbv zeta. rewrite He, Hr, Ha.
  destruct (result (stop_nodes names m2)) as [e|[]];
    cbn [after emitted result]; [repeat apply conj; auto|].
  unfold with_driver. cbn [driver]. repeat apply conj; reflexivity.
Qed.


End StopStatusMore.

Lemma stop_unusable_state_file_witness :
  do_cluster_stop (Runs.stop Runs.three_names)
    (Runs.fresh TestDriver.middle_faulty) =
  Run (Runs.fresh TestDriver.middle_faulty) []
    (inl (CliException StrOfIOError)).
Proof.
  apply (stop_unusable_state_file (Runs.stop Runs.three_names)
           (Runs.fresh TestDriver.middle_faulty)).
  exact I.
Defined.

Lemma listing_failure_not_wrapped_witness :
  do_cluster_stop (Runs.stop [])
    (Machine (Document (VDict Documents.running_docker)) true
       FlakyDriver.no_listing) =
  Run (Machine (Document (VDict Documents.running_docker)) true
         FlakyDriver.no_listing) []
    (inl (ManagementError "cannot list nodes")) /\
  do_cluster_status (Runs.status [] None)
    (Machine Missing true FlakyDriver.no_listing) =
  Run (Machine Missing true FlakyDriver.no_listing) []
    (inl (ManagementError "cannot list nodes")).
Proof.
  apply (listing_failure_not_wrapped (Runs.stop []) (Runs.status [] None)
           (Machine (Document (VDict Documents.running_docker)) true
              FlakyDriver.no_listing)
           (Machine Missing true FlakyDriver.no_listing)
           (VDict Documents.running_docker) (VStr "docker")
           DockerNodeController DockerNodeController).
  - reflexivity.
  - vm_compute. reflexivity.
  - reflexivity.
  - reflexivity.
  - reflexivity.
  - reflexivity.
  - reflexivity.
  - reflexivity.
Defined.

Lemma stop_reads_manage_only_witness :
  emitted (do_cluster_stop (Runs.stop [])
             (Runs.with_document Documents.running_docker
                TestDriver.second_down)) =
  emitted (do_cluster_stop (Runs.stop [])
             (Runs.with_document MoreDocuments.stopped_null_manage
                TestDriver.second_down)).
Proof.
  apply (stop_reads_manage_only (Runs.stop [])
           (Runs.with_document Documents.running_docker TestDriver.second_down)
           (Runs.with_document MoreDocuments.stopped_null_manage
              TestDriver.second_down)
           (VDict Documents.running_docker)
           (VDict MoreDocuments.stopped_null_manage)
           (VStr "docker") VNone).
  - reflexivity.
  - reflexivity.
  - vm_compute. reflexivity.
  - vm_compute. reflexivity.
  - reflexivity.
  - reflexivity.
Defined.


(** ** Exceptions that are not caught *)

Section NotCaught.
Context {W : Type} `{NodeDriver W}.

(** X21. An exception raised inside the start loop, by [is_running], by
    the generator's [start] or by the assignment to [state["Nodes"]],
    leaves [do_cluster_start] as it is (a [ManagementError] is not
    turned into a [CliException] there); the start actions issued so far
    stay issued, the state file is not written and [update] is not
    called. *)
Theorem start_loop_failure a (m : machine W) st ctl existing e :
  result (start_resolve a m) = inr (st, ctl, existing) ->
  result (start_loop ctl existing (count a) st m) = inl e ->
  result (do_cluster_start a m) = inl e /\
  emitted (do_cluster_start a m) =
  emitted (start_loop ctl existing (count a) st m) /\
  state_file (after (do_cluster_start a m)) = state_file m /\
  (forall doc, ~ In (WriteState doc) (emitted (do_cluster_start a m))) /\
  ~ In VnmUpdate (emitted (do_cluster_start a m)).
Proof.
  intros Hres Hloop.
  destruct (start_loop_facts ctl existing (count a) st m)
    as (started & _ & _ & Hev & Hf & _).
  rewrite do_cluster_start_run, Hres. cbv zeta. rewrite Hloop.
  cbn [after emitted result]. repeat apply conj.
  - reflexivity.
  - reflexivity.
  - exact Hf.
  - intros doc. apply loop_events_no_write. exact Hev.
  - intros Hin. rewrite forallb_forall in Hev. apply Hev in Hin.
    discriminate.
Qed.

(** X22. In [do_cluster_stop], [update] is called after every resolved
    name has been handed to the generator, and an exception it raises
    leaves the command as it is, a [ManagementError] included. *)
Theorem stop_update_failure a (m : machine W) doc recorded ctl names e :
  state_file m = Document doc ->
  py_getitem doc "Manage" = inr recorded ->
  stop_controller recorded = inr ctl ->
  resolved_names a ctl (driver m) = inr names ->
  result (stop_nodes names m) = inr tt ->
  snd (vnm_update ctl (driver (after (stop_nodes names m)))) = Some e ->
  result (do_cluster_stop a m) = inl e /\
  emitted (do_cluster_stop a m) = (stop_events names ++ [VnmUpdate])%list /\
  stop_targets (emitted (do_cluster_stop a m)) = names.
Proof.
  intros EF EM EC En Hloop He.
  destruct (stop_nodes_run names m) as (_ & _ & handed & _ & Hev & Hall).
  specialize (Hall Hloop). subst handed.
  rewrite do_cluster_stop_run, EF, EM, EC, En. cbv zeta.
  rewrite Hloop, He. cbn [after emitted result]. rewrite Hev.
  repeat apply conj; try reflexivity.
  rewrite stop_targets_app, stop_targets_stop_events. apply app_nil_r.
Qed.

End NotCaught.

Lemma start_loop_failure_witness :
  result (do_cluster_start (Runs.start 3 None)
            (Machine Missing true FlakyDriver.second_unstartable)) =
  inl (ManagementError "cannot start: validator-001") /\
  state_file (after (do_cluster_start (Runs.start 3 None)
                       (Machine Missing true FlakyDriver.second_unstartable))) =
  Missing.
Proof.
  destruct (start_loop_failure (Runs.start 3 None)
              (Machine Missing true FlakyDriver.second_unstartable)
              (<["State" := VStr "Running"]>
                 (<["Manage" := VStr "docker"]>
                    (<["Nodes" := VDict ∅]> {["State" := VStr "Stopped"]})))
              DockerNodeController []
              (ManagementError "cannot start: validator-001"))
    as (Hr & _ & Hf & _).
  - vm_compute. reflexivity.
  - vm_compute. reflexivity.
  - split; [exact Hr|exact Hf].
Defined.

Lemma stop_update_failure_witness :
  result (do_cluster_stop (Runs.stop [])
            (Machine (Document (VDict Documents.running_docker)) true
               FlakyDriver.two_up_no_update)) =
  inl (ManagementError "cannot update") /\
  stop_targets
    (emitted (do_cluster_stop (Runs.stop [])
                (Machine (Document (VDict Documents.running_docker)) true
                   FlakyDriver.two_up_no_update))) =
  ["validator-000"; "validator-001"].
Proof.
  destruct (stop_update_failure (Runs.stop [])
              (Machine (Document (VDict Documents.running_docker)) true
                 FlakyDriver.two_up_no_update)
              (VDict Documents.running_docker) (VStr "docker")
              DockerNodeController ["validator-000"; "validator-001"]
              (ManagementError "cannot update"))
    as (Hr & _ & Ht).
  - reflexivity.
  - vm_compute. reflexivity.
  - reflexivity.
  - reflexivity.
  - vm_compute. reflexivity.
  - vm_compute. reflexivity.
  - split; assumption.
Defined.
